(** * GitHub link resolution of discord-toolkit-bot

    A shallow embedding of [src/functions/github/handler.ts] in its two
    revisions:

    - the revision that resolves a Gist to a per-file raw URL
      (module [RawUrl], file [src/functions/github/handler.ts]);
    - the revision that resolves a Gist through the Gist metadata API
      (module [GistApi], the first file of [unnamed/part_000]).

    Strings are sequences of code units ([string]), line numbers are
    JavaScript numbers restricted to the integers plus [NaN] and
    [undefined], promises that reject and expressions that throw are
    the [Thrown] outcome. *)

From Stdlib Require Import String Ascii ZArith List Lia Bool.
From Stdlib Require DecimalString.
From stdpp Require Import base option list gmap strings.

Local Open Scope Z_scope.

(** ** Outcomes: a small error monad for code that may throw *)

Inductive outcome (A : Type) : Type :=
| Returned (a : A)
| Thrown.
Arguments Returned {A} a.
Arguments Thrown {A}.

Definition obind {A B} (x : outcome A) (k : A -> outcome B) : outcome B :=
  match x with
  | Returned a => k a
  | Thrown => Thrown
  end.

Notation "'let!' x ':=' e 'in' k" := (obind e (fun x => k))
  (at level 10, x name, e at level 100, k at level 200).

(** ** JavaScript numbers, as far as line arithmetic needs them *)

Module Js.

(** A value of type [number | undefined] whose numbers are integers. *)
Inductive num : Type :=
| Undefined
| NaN
| Num (z : Z).

Definition num_eqb (a b : num) : bool :=
  match a, b with
  | Undefined, Undefined => true
  | NaN, NaN => true
  | Num x, Num y => x =? y
  | _, _ => false
  end.

(** [ToBoolean]: [undefined], [NaN] and [0] are falsy. *)
Definition truthy (v : num) : bool :=
  match v with
  | Num z => negb (z =? 0)
  | _ => false
  end.

(** [a || b] *)
Definition or (a b : num) : num := if truthy a then a else b.

(** [Math.min(a, b)]: [undefined] converts to [NaN], [NaN] is absorbing. *)
Definition min (a b : num) : num :=
  match a, b with
  | Num x, Num y => Num (Z.min x y)
  | _, _ => NaN
  end.

(** [a + b] and [a - b] on numbers. *)
Definition add (a b : num) : num :=
  match a, b with
  | Num x, Num y => Num (x + y)
  | _, _ => NaN
  end.

Definition sub (a b : num) : num :=
  match a, b with
  | Num x, Num y => Num (x - y)
  | _, _ => NaN
  end.

(** [ToIntegerOrInfinity] *)
Definition to_integer (v : num) : Z :=
  match v with
  | Num z => z
  | _ => 0
  end.

(** The relative index of [Array.prototype.slice]. *)
Definition relative (len rel : Z) : Z :=
  if rel <? 0 then Z.max (len + rel) 0 else Z.min rel len.

(** [arr.slice(start, end)] *)
Definition slice {A} (arr : list A) (start end_ : num) : list A :=
  let len := Z.of_nat (length arr) in
  let k := relative len (to_integer start) in
  let final :=
    match end_ with
    | Undefined => len
    | _ => relative len (to_integer end_)
    end in
  take (Z.to_nat (final - k)) (drop (Z.to_nat k) arr).

(** [v > n] for a number [n]; comparisons with [NaN] are false. *)
Definition exceeds (v : num) (n : Z) : bool :=
  match v with
  | Num z => n <? z
  | _ => false
  end.

End Js.

(** ** JavaScript strings *)

Module Str.

Definition nl : string := String (ascii_of_nat 10) EmptyString.

Definition len (s : string) : Z := Z.of_nat (String.length s).

Fixpoint drop (n : nat) (s : string) : string :=
  match n, s with
  | O, _ => s
  | S n', String _ s' => drop n' s'
  | S _, EmptyString => EmptyString
  end.

Definition is_digit (c : ascii) : bool :=
  match Ascii.is_nat c with
  | Some _ => true
  | None => false
  end.

(** [s.includes(needle)] *)
Fixpoint includes (needle s : string) : bool :=
  String.prefix needle s
  || match s with
     | EmptyString => false
     | String _ s' => includes needle s'
     end.

(** [s.replace(pat, rep)] for a string pattern: the first occurrence. *)
Fixpoint replace (pat rep s : string) : string :=
  if String.prefix pat s then rep +:+ drop (String.length pat) s
  else match s with
       | EmptyString => EmptyString
       | String c s' => String c (replace pat rep s')
       end.

(** [s.replaceAll(pat, rep)] for a one-character pattern. *)
Fixpoint replaceAll (pat : ascii) (rep : string) (s : string) : string :=
  match s with
  | EmptyString => EmptyString
  | String c s' =>
      if Ascii.eqb c pat then rep +:+ replaceAll pat rep s'
      else String c (replaceAll pat rep s')
  end.

(** [s.split(sep)] for a one-character separator: never empty. *)
Fixpoint split (sep : ascii) (s : string) : list string :=
  match s with
  | EmptyString => [EmptyString]
  | String c s' =>
      if Ascii.eqb c sep then EmptyString :: split sep s'
      else match split sep s' with
           | h :: t => String c h :: t
           | [] => [String c EmptyString]
           end
  end.

(** [arr.join(sep)] *)
Definition join (sep : string) (arr : list string) : string :=
  String.concat sep arr.

(** [a || b] on strings: the empty string is falsy. *)
Definition or (a b : string) : string :=
  match a with
  | EmptyString => b
  | _ => a
  end.

(** [!s] for [s : string | null | undefined]. *)
Definition falsy (s : option string) : bool :=
  match s with
  | None | Some EmptyString => true
  | Some _ => false
  end.

(** *** The regular expressions written out in the handler *)

(** [s.replace(/\/(?:blob|(?:blame))/, empty)]: the leftmost [/blob]
    or [/blame] is removed. *)
Fixpoint remove_blob (s : string) : string :=
  if String.prefix "/blob" s then drop 5 s
  else if String.prefix "/blame" s then drop 6 s
  else match s with
       | EmptyString => EmptyString
       | String c s' => String c (remove_blob s')
       end.

(** The rest of a greedy [(?:-L\d+)+] once a first digit was read. *)
Fixpoint eat_markers (s : string) : string :=
  match s with
  | EmptyString => EmptyString
  | String c s' =>
      if is_digit c then eat_markers s'
      else match c, s' with
           | "-"%char, String "L"%char (String d s'') =>
               if is_digit d then eat_markers s'' else s
           | _, _ => s
           end
  end.

(** [s.replace(/(?:-L\d+)+/, empty)] *)
Fixpoint remove_markers (s : string) : string :=
  match s with
  | EmptyString => EmptyString
  | String c s' =>
      match c, s' with
      | "-"%char, String "L"%char (String d s'') =>
          if is_digit d then eat_markers s'' else String c (remove_markers s')
      | _, _ => String c (remove_markers s')
      end
  end.

(** [s.replaceAll(/-L\d+/g, empty)]; [digits] says that the characters
    before the current one were consumed by a match that may go on. *)
Fixpoint remove_all_markers_from (digits : bool) (s : string) : string :=
  match s with
  | EmptyString => EmptyString
  | String c s' =>
      if digits && is_digit c then remove_all_markers_from true s'
      else match c, s' with
           | "-"%char, String "L"%char (String d s'') =>
               if is_digit d then remove_all_markers_from true s''
               else String c (remove_all_markers_from false s')
           | _, _ => String c (remove_all_markers_from false s')
           end
  end.

Definition remove_all_markers (s : string) : string :=
  remove_all_markers_from false s.

Fixpoint all_digits (s : string) : bool :=
  match s with
  | EmptyString => true
  | String c s' => is_digit c && all_digits s'
  end.

(** Does [/-L\d+$/] match at the start of [s]? *)
Definition is_end_marker (s : string) : bool :=
  match s with
  | String "-"%char (String "L"%char (String d s')) => is_digit d && all_digits s'
  | _ => false
  end.

(** [s.replaceAll(/-L\d+$/g, empty)]: without the multiline flag the
    pattern matches at most once, at the end of the string. *)
Fixpoint remove_end_marker (s : string) : string :=
  if is_end_marker s then EmptyString
  else match s with
       | EmptyString => EmptyString
       | String c s' => String c (remove_end_marker s')
       end.

End Str.

(** ** Data model of the handler *)

Inductive GitHubUrlType : Type :=
| Normal
| Gist
| Diff.

Definition GitHubUrlType_eqb (a b : GitHubUrlType) : bool :=
  match a, b with
  | Normal, Normal | Gist, Gist | Diff, Diff => true
  | _, _ => false
  end.

(** The result of [regex.exec(s)]: element [0] and the named groups the
    handler reads. A group that did not take part is [undefined]. *)
Record RegExpExecArray : Type := {
  whole : string;
  g_user : option string;
  g_id : option string;
  g_opts : option string
}.

(** A regular expression without the [g] and [y] flags: [exec] does not
    depend on earlier calls. *)
Definition RegExp : Type := string -> option RegExpExecArray.

Record GitHubMatchResult : Type := {
  converter : string -> outcome (option string);
  opts : option string;
  regex : RegExp;
  type : GitHubUrlType;
  url : string
}.

(** An entry of the [validators] table. *)
Record Validator : Type := {
  v_type : GitHubUrlType;
  v_regex : RegExp;
  v_converter : string -> outcome (option string)
}.

(** [AttachmentPayload]: [attachment] holds the bytes given to
    [Buffer.from]. *)
Record AttachmentPayload : Type := {
  attachment : string;
  name : string
}.

Record ResolvedGitHubResult : Type := {
  content : string;
  files : list AttachmentPayload
}.

(** What [resolveLines] returns. *)
Record LineRange : Type := {
  startLine : Js.num;
  endLine : Js.num
}.

(** The body of a response as the handler types it:
    [string | { files: Record<string, { content: string }> }]. *)
Inductive RawFile : Type :=
| RawText (s : string)
| RawGist (gist_files : list (string * string)).

(** A response of the HTTP client: [res.json()] rejects on a body that
    is not JSON and may resolve to [null]. *)
Record Response : Type := {
  status : Z;
  text : string;
  json : outcome (option RawFile)
}.

(** The array that [matchAll] yields for one match: a fresh object
    (identified by [ref]) whose element [0] is the matched text. *)
Record RegExpMatchArray : Type := {
  ref : nat;
  item0 : string
}.

(** ** What the handler imports *)

(** [util/constants.js] and [functions/github/regex.js]: the patterns.
    [URL_REGEX] is given by the texts of its successive matches. *)
Class Patterns : Type := {
  URL_REGEX : string -> list string;
  NormalGitHubUrlRegex : RegExp;
  GistGitHubUrlRegex : RegExp
}.

(** [functions/github/utils.js] and [util/array.js]. [generateHeader]
    takes the fields [startLine], [endLine], [path] and [ellipsed] of
    its payload. *)
Class Utils : Type := {
  resolveLines : option string -> LineRange;
  resolveFileLanguage : string -> string;
  generateHeader : Js.num -> Js.num -> string -> option bool -> string;
  formatLine : string -> Js.num -> Js.num -> nat -> bool -> string;
  trimLeadingIndent : list string -> list string;
  truncateArray : list string -> Z -> list string
}.

(** The network and the URL parser: [fetch(u)] (or [request(u)])
    rejects or resolves to a response, [new URL(u).pathname] throws on
    text that is not a URL. *)
Class World : Type := {
  fetch : string -> outcome Response;
  pathname : string -> outcome string
}.

(** [codeBlock(language, content)] of discord.js. *)
Definition codeBlock (language content : string) : string :=
  "```" +:+ language +:+ Str.nl +:+ content +:+ Str.nl +:+ "```".

(** ** Code shared by the two revisions *)

Module Common.
Section Common.
Context `{Patterns} `{Utils}.

Definition SAFE_BOUNDARY : Z := 100.

(** [validators[Normal].converter] *)
Definition normalConverter (u : string) : outcome (option string) :=
  Returned (Some
    (Str.remove_blob
       (Str.replace "github.com" "raw.githubusercontent.com"
          (Str.replace ">" EmptyString u)))).

(** [text.matchAll(re)]: one fresh array per match. *)
Definition matchAll (re : string -> list string) (t : string)
  : list RegExpMatchArray :=
  imap (fun i u => {| ref := i; item0 := u |}) (re t).

(** Equality of the elements of a [Set]: objects are equal when they
    are the same object. *)
Definition SameValueZero (a b : RegExpMatchArray) : bool :=
  Nat.eqb (ref a) (ref b).

Definition Set_add (s : list RegExpMatchArray) (x : RegExpMatchArray)
  : list RegExpMatchArray :=
  if existsb (SameValueZero x) s then s else s ++ [x].

(** [new Set(iterable)], in insertion order. *)
Definition Set_from (it : list RegExpMatchArray) : list RegExpMatchArray :=
  fold_left Set_add it [].

(** The callback given to [map] in [matchGitHubUrls]; [null] is
    [None]. Reading [groups] of a [null] match throws. *)
Definition classify (validators : list Validator) (a : RegExpMatchArray)
  : outcome (option GitHubMatchResult) :=
  let u := item0 a in
  match List.find (fun v => bool_decide (is_Some (v_regex v u))) validators with
  | None => Returned None
  | Some found =>
      match v_regex found u with
      | None => Thrown
      | Some regexMatch =>
          match whole regexMatch with
          | EmptyString => Returned None
          | _ =>
              Returned (Some {| url := whole regexMatch;
                                opts := g_opts regexMatch;
                                type := v_type found;
                                regex := v_regex found;
                                converter := v_converter found |})
          end
      end
  end.

(** [arr.map(f).filter(Boolean)] for a callback that may throw. *)
Fixpoint map_filter {A B} (f : A -> outcome (option B)) (l : list A)
  : outcome (list B) :=
  match l with
  | [] => Returned []
  | a :: l' =>
      let! b := f a in
      let! bs := map_filter f l' in
      Returned (match b with Some b => b :: bs | None => bs end)
  end.

Definition matchGitHubUrls (validators : list Validator) (t : string)
  : outcome (list GitHubMatchResult) :=
  let urls := Set_from (matchAll URL_REGEX t) in
  match urls with
  | [] => Returned []
  | _ => map_filter (classify validators) urls
  end.

(** The variables of one iteration once the file is fetched and the
    range is clamped: [type], [path], [lang], [parsedLines],
    [safeStartLine] and [safeEndLine]. *)
Record Slice : Type := {
  s_type : GitHubUrlType;
  s_path : string;
  s_lang : string;
  parsedLines : list string;
  safeStartLine : Js.num;
  safeEndLine : Js.num
}.

Definition linesRequested (s : Slice) : list string :=
  Js.slice (parsedLines s) (Js.sub (safeStartLine s) (Js.Num 1)) (safeEndLine s).

Definition hasCodeBlock (s : Slice) : bool :=
  existsb (Str.includes "```") (linesRequested s).

Definition header (s : Slice) : string :=
  generateHeader (safeStartLine s) (safeEndLine s) (s_path s) None.

Definition formattedLines (s : Slice) : list string :=
  imap (fun index line =>
          formatLine line (safeStartLine s) (safeEndLine s) index
            (String.eqb (s_lang s) "ansi"))
       (trimLeadingIndent (linesRequested s)).

Definition safeLinesRequested (s : Slice) : list string :=
  truncateArray (formattedLines s)
    (2000 - (Str.len (header s) + SAFE_BOUNDARY + Str.len (s_lang s))).

(** The end line of the second header. *)
Definition renderedEndLine (s : Slice) : Js.num :=
  Js.sub
    (Js.add (Js.Num (Z.of_nat (length (safeLinesRequested s)))) (safeStartLine s))
    (Js.Num 1).

(** The [content] assembled for the inline branch. *)
Definition inlineContent (s : Slice) : string :=
  Str.join Str.nl
    [ generateHeader (safeStartLine s) (renderedEndLine s) (s_path s)
        (Some (negb (Nat.eqb (length (safeLinesRequested s))
                             (length (linesRequested s)))));
      codeBlock (s_lang s)
        (Str.or (Str.join Str.nl (safeLinesRequested s))
           "Couldn't find any lines") ].

(** The result pushed by the code-fence branch and by the size
    fallback (the same object literal in both places). *)
Definition attachmentResult (s : Slice) : ResolvedGitHubResult :=
  {| content := header s;
     files :=
       [ {| attachment := Str.join Str.nl (linesRequested s);
            name := if GitHubUrlType_eqb (s_type s) Gist
                    then s_path s +:+ "." +:+ s_lang s else s_path s |} ] |}.

(** The loop body of [resolveGitHubResults] from [linesRequested] on,
    which is the same text in both revisions. *)
Definition render (s : Slice) : ResolvedGitHubResult :=
  if hasCodeBlock s then attachmentResult s
  else if 2000 <=? Str.len (inlineContent s) then attachmentResult s
  else {| content := inlineContent s; files := [] |}.

(** [for (const m of matches) { ... results.push(r) ... }] for a body
    that pushes at most once, skips with [continue] ([None]) or
    throws. *)
Fixpoint loop (body : GitHubMatchResult -> outcome (option ResolvedGitHubResult))
    (matches : list GitHubMatchResult) (results : list ResolvedGitHubResult)
  : outcome (list ResolvedGitHubResult) :=
  match matches with
  | [] => Returned results
  | m :: rest =>
      let! r := body m in
      match r with
      | None => loop body rest results
      | Some r => loop body rest (results ++ [r])
      end
  end.

End Common.
End Common.

(** ** The revision with per-file raw Gist URLs
    ([src/functions/github/handler.ts]) *)

Module RawUrl.
Section RawUrl.
Context `{Patterns} `{Utils} `{World}.

(** [validators[Gist].converter] *)
Definition gistConverter (u : string) : outcome (option string) :=
  match GistGitHubUrlRegex (Str.remove_markers u) with
  | None => Thrown
  | Some groups =>
      if Str.falsy (g_user groups) || Str.falsy (g_id groups)
         || Str.falsy (g_opts groups)
      then Returned None
      else
        let user := default EmptyString (g_user groups) in
        let id := default EmptyString (g_id groups) in
        let opts := default EmptyString (g_opts groups) in
        let fileName :=
          Str.join "." (Js.slice (Str.split "-" opts) (Js.Num 0) (Js.Num (-1))) in
        let extension := default "undefined" (last (Str.split "-" opts)) in
        Returned (Some ("https://gist.githubusercontent.com/" +:+ user +:+ "/"
                          +:+ id +:+ "/raw/" +:+ fileName +:+ "." +:+ extension))
  end.

Definition validators : list Validator :=
  [ {| v_type := Normal; v_regex := NormalGitHubUrlRegex;
       v_converter := Common.normalConverter |};
    {| v_type := Gist; v_regex := GistGitHubUrlRegex;
       v_converter := gistConverter |} ].

Definition matchGitHubUrls (t : string) : outcome (list GitHubMatchResult) :=
  Common.matchGitHubUrls validators t.

(** [safeStartLine] and [safeEndLine] for a file of [n] lines. *)
Definition safeLines (range : LineRange) (n : nat) : Js.num * Js.num :=
  let len := Js.Num (Z.of_nat n) in
  (Js.min (startLine range) len,
   Js.min (if Js.truthy (endLine range) then endLine range else startLine range)
          len).

(** One iteration of the loop of [resolveGitHubResults], up to the
    clamped range; [None] is a [continue]. *)
Definition fetchSlice (m : GitHubMatchResult) : outcome (option Common.Slice) :=
  let! rawUrl := converter m (url m) in
  if Str.falsy rawUrl then Returned None
  else
    let rawUrl := default EmptyString rawUrl in
    let! res := fetch rawUrl in
    let rawFile := if status res =? 200 then Some (text res) else None in
    if Str.falsy rawFile then Returned None
    else
      let rawFile := default EmptyString rawFile in
      let range := resolveLines (opts m) in
      let lang := resolveFileLanguage rawUrl in
      let! path := pathname (url m) in
      let parsedLines := Str.split (ascii_of_nat 10) rawFile in
      let '(safeStartLine, safeEndLine) := safeLines range (length parsedLines) in
      Returned (Some {| Common.s_type := type m;
                        Common.s_path := path;
                        Common.s_lang := lang;
                        Common.parsedLines := parsedLines;
                        Common.safeStartLine := safeStartLine;
                        Common.safeEndLine := safeEndLine |}).

(** One whole iteration: the result it pushes, if any. *)
Definition resolveMatch (m : GitHubMatchResult)
  : outcome (option ResolvedGitHubResult) :=
  let! s := fetchSlice m in
  Returned (Common.render <$> s).

Definition resolveGitHubResults (matches : list GitHubMatchResult)
  : outcome (list ResolvedGitHubResult) :=
  Common.loop resolveMatch matches [].

End RawUrl.
End RawUrl.

(** ** The revision with the Gist metadata API ([unnamed/part_000]) *)

Module GistApi.
Section GistApi.
Context `{Patterns} `{Utils} `{World}.

(** [validators[Gist].converter] *)
Definition gistConverter (u : string) : outcome (option string) :=
  match GistGitHubUrlRegex (Str.remove_markers u) with
  | None => Thrown
  | Some groups =>
      if Str.falsy (g_id groups) || Str.falsy (g_opts groups)
      then Returned None
      else
        let id := default EmptyString (g_id groups) in
        Returned (Some ("https://api.github.com/gists/" +:+ id))
  end.

Definition validators : list Validator :=
  [ {| v_type := Normal; v_regex := NormalGitHubUrlRegex;
       v_converter := Common.normalConverter |};
    {| v_type := Gist; v_regex := GistGitHubUrlRegex;
       v_converter := gistConverter |} ].

Definition matchGitHubUrls (t : string) : outcome (list GitHubMatchResult) :=
  Common.matchGitHubUrls validators t.

(** The names that an object literal inherits from [Object.prototype]
    as functions; [__proto__], an accessor, is treated apart. *)
Definition objectPrototypeNames : list string :=
  [ "constructor"; "__defineGetter__"; "__defineSetter__"; "hasOwnProperty";
    "__lookupGetter__"; "__lookupSetter__"; "isPrototypeOf";
    "propertyIsEnumerable"; "toString"; "valueOf"; "toLocaleString" ].

(** The object [parsedFiles], created as [{}]: its own properties, and
    the entry that an assignment to [__proto__] has made its prototype,
    if there was one. An entry [{ raw, parsed }] is the pair of [raw]
    and [parsed.content]. *)
Record ParsedFiles : Type := {
  own : gmap string (string * string);
  proto : option (string * string)
}.

(** [parsedFiles[k] = entry]: the name [__proto__] reaches the setter
    of [Object.prototype], which replaces the prototype; every other
    name becomes an own property. *)
Definition assignFile (parsedFiles : ParsedFiles) (k : string)
    (entry : string * string) : ParsedFiles :=
  if String.eqb k "__proto__"
  then {| own := own parsedFiles; proto := Some entry |}
  else {| own := <[k := entry]> (own parsedFiles); proto := proto parsedFiles |}.

(** [parsedFiles] after the [for ... in] loop over the own properties
    of [rawFile.files], given in the order of the loop: the files of
    the gist under their name with every [.] turned into [-]. *)
Definition parseFiles (gist_files : list (string * string)) : ParsedFiles :=
  fold_left
    (fun parsedFiles '(key, c) =>
       assignFile parsedFiles (Str.replaceAll "." "-" key) (key, c))
    gist_files {| own := ∅; proto := None |}.

(** [parsedFiles[k]?.parsed.content]. An own property gives the
    contents of its file. Otherwise the prototype chain answers: the
    getter of [__proto__] gives the prototype (an entry, or
    [Object.prototype]); an entry that is the prototype has the
    properties [raw] and [parsed]; [Object.prototype] has its
    functions. None of these values but an entry has a property
    [parsed], and reading [content] of [undefined] throws. A name that
    nothing answers gives [undefined]. *)
Definition lookupContent (parsedFiles : ParsedFiles) (k : string)
  : outcome (option string) :=
  match own parsedFiles !! k with
  | Some entry => Returned (Some (snd entry))
  | None =>
      if String.eqb k "__proto__" then
        match proto parsedFiles with
        | Some entry => Returned (Some (snd entry))
        | None => Thrown
        end
      else if bool_decide (is_Some (proto parsedFiles))
              && (String.eqb k "raw" || String.eqb k "parsed")
      then Thrown
      else if bool_decide (k ∈ objectPrototypeNames) then Thrown
      else Returned None
  end.

(** [fileContents]: [None] is [undefined]; a use of [opts!] on an
    absent [opts] throws. *)
Definition fileContentsOf (ty : GitHubUrlType) (o : option string)
    (rawFile : RawFile) : outcome (option string) :=
  match rawFile with
  | RawGist gist_files =>
      if GitHubUrlType_eqb ty Gist then
        match o with
        | None => Thrown
        | Some o =>
            lookupContent (parseFiles gist_files)
              (Str.replaceAll "." "-" (Str.remove_all_markers o))
        end
      else
        (* only responses of Gist matches are parsed as JSON; a
           non-string here would fail at [split] *)
        Thrown
  | RawText s => Returned (Some s)
  end.

(** [safeStartLine] and [safeEndLine] for a file of [n] lines. *)
Definition safeLines (range : LineRange) (n : nat) : Js.num * Js.num :=
  let len := Js.Num (Z.of_nat n) in
  (Js.min (Js.or (startLine range) (Js.Num 1)) len,
   Js.min (if Js.truthy (endLine range) then endLine range
           else Js.or (startLine range) len)
          len).

(** [opts!.replaceAll(/-L\d+$/g, empty).replaceAll(/-L\d+$/g, empty)] *)
Definition fileQualifier (o : string) : string :=
  Str.remove_end_marker (Str.remove_end_marker o).

(** One iteration of the loop of [resolveGitHubResults], up to the
    clamped range; [None] is a [continue]. *)
Definition fetchSlice (m : GitHubMatchResult) : outcome (option Common.Slice) :=
  let! rawData := converter m (url m) in
  if Str.falsy rawData then Returned None
  else
    let rawData := default EmptyString rawData in
    let! res := fetch rawData in
    let! rawFile :=
      if status res =? 200
      then if GitHubUrlType_eqb (type m) Gist then json res
           else Returned (Some (RawText (text res)))
      else Returned None in
    match rawFile with
    | None | Some (RawText EmptyString) => Returned None
    | Some rawFile =>
        let! fileContents := fileContentsOf (type m) (opts m) rawFile in
        if Str.falsy fileContents then Returned None
        else
          let fileContents := default EmptyString fileContents in
          let range := resolveLines (opts m) in
          let! lang :=
            if GitHubUrlType_eqb (type m) Gist then
              match opts m with
              | None => Thrown
              | Some o =>
                  Returned (resolveFileLanguage
                              (Str.replaceAll "-" "." (fileQualifier o)))
              end
            else Returned (resolveFileLanguage rawData) in
          let! path :=
            if GitHubUrlType_eqb (type m) Gist then
              let! p := pathname (url m) in
              match opts m with
              | None => Thrown
              | Some o => Returned (p +:+ "#file-" +:+ fileQualifier o)
              end
            else pathname (url m) in
          let parsedLines := Str.split (ascii_of_nat 10) fileContents in
          let '(safeStartLine, safeEndLine) :=
            safeLines range (length parsedLines) in
          Returned (Some {| Common.s_type := type m;
                            Common.s_path := path;
                            Common.s_lang := lang;
                            Common.parsedLines := parsedLines;
                            Common.safeStartLine := safeStartLine;
                            Common.safeEndLine := safeEndLine |})
    end.

(** One whole iteration: the result it pushes, if any. *)
Definition resolveMatch (m : GitHubMatchResult)
  : outcome (option ResolvedGitHubResult) :=
  let! s := fetchSlice m in
  Returned (Common.render <$> s).

Definition resolveGitHubResults (matches : list GitHubMatchResult)
  : outcome (list ResolvedGitHubResult) :=
  Common.loop resolveMatch matches [].

End GistApi.
End GistApi.


(** ** Both revisions at once *)

Inductive Revision : Type :=
| PerFileRawUrl
| MetadataApi.

Section Revisions.
Context `{Patterns} `{Utils} `{World}.

Definition gistConverterOf (rev : Revision) : string -> outcome (option string) :=
  match rev with
  | PerFileRawUrl => RawUrl.gistConverter
  | MetadataApi => GistApi.gistConverter
  end.

Definition matchGitHubUrlsOf (rev : Revision)
  : string -> outcome (list GitHubMatchResult) :=
  match rev with
  | PerFileRawUrl => RawUrl.matchGitHubUrls
  | MetadataApi => GistApi.matchGitHubUrls
  end.

Definition safeLinesOf (rev : Revision) : LineRange -> nat -> Js.num * Js.num :=
  match rev with
  | PerFileRawUrl => RawUrl.safeLines
  | MetadataApi => GistApi.safeLines
  end.

Definition fetchSliceOf (rev : Revision)
  : GitHubMatchResult -> outcome (option Common.Slice) :=
  match rev with
  | PerFileRawUrl => RawUrl.fetchSlice
  | MetadataApi => GistApi.fetchSlice
  end.

Definition resolveMatchOf (rev : Revision)
  : GitHubMatchResult -> outcome (option ResolvedGitHubResult) :=
  match rev with
  | PerFileRawUrl => RawUrl.resolveMatch
  | MetadataApi => GistApi.resolveMatch
  end.

Definition resolveGitHubResultsOf (rev : Revision)
  : list GitHubMatchResult -> outcome (list ResolvedGitHubResult) :=
  match rev with
  | PerFileRawUrl => RawUrl.resolveGitHubResults
  | MetadataApi => GistApi.resolveGitHubResults
  end.

End Revisions.

(** ** Vocabulary of the statements *)

(** How an iteration ends. *)
Inductive Ending : Type :=
| Pushed
| Skipped
| Threw.

Definition ending {A} (o : outcome (option A)) : Ending :=
  match o with
  | Returned (Some _) => Pushed
  | Returned None => Skipped
  | Thrown => Threw
  end.

Definition returns {A} (o : outcome A) : bool :=
  match o with
  | Returned _ => true
  | Thrown => false
  end.

(** The result an iteration pushes, if it pushes one. *)
Definition pushed {A B} (body : A -> outcome (option B)) (a : A) : option B :=
  match body a with
  | Returned r => r
  | Thrown => None
  end.

(** The line of a file with the given 1-based number. *)
Definition line_at (lines : list string) (z : Z) : option string :=
  if 0 <? z then lines !! Z.to_nat (z - 1) else None.

(** ** The command that replies with the resolved links
    ([unnamed/part_000], second file) *)

(** The options given to [interaction.reply]; [reply_files] is [None]
    when the key [files] is not there. *)
Record InteractionReplyOptions : Type := {
  ephemeral : bool;
  reply_content : string;
  reply_files : option (list AttachmentPayload)
}.

Module Command.
Section Command.
Context `{Patterns} `{Utils} `{World}.

(** [s.slice(0, n)] *)
Fixpoint slice0 (n : nat) (s : string) : string :=
  match n, s with
  | S n', String c s' => String c (slice0 n' s')
  | _, _ => EmptyString
  end.

(** The reply of both early returns. *)
Definition nothingFound : InteractionReplyOptions :=
  {| ephemeral := true;
     reply_content :=
       "No GitHub links with specified lines to resolve found in this message.";
     reply_files := None |}.

(** The callback given to [reduce]. *)
Definition collect (accumulator : list string * list AttachmentPayload)
    (current : ResolvedGitHubResult) : list string * list AttachmentPayload :=
  (fst accumulator ++ [content current], snd accumulator ++ files current).

(** [messageContext] for a message with the given content: the options
    of the one reply it sends. A rejected promise of the handler is
    thrown on. *)
Definition messageContext (rev : Revision) (messageContent : string)
  : outcome InteractionReplyOptions :=
  let! matches := matchGitHubUrlsOf rev messageContent in
  match matches with
  | [] => Returned nothingFound
  | _ =>
      let! resolvedMatches := resolveGitHubResultsOf rev matches in
      match resolvedMatches with
      | [] => Returned nothingFound
      | _ =>
          let '(contentParts, files) := fold_left collect resolvedMatches ([], []) in
          let content := Str.join Str.nl contentParts in
          Returned {| ephemeral := true;
                      reply_content := slice0 2000 content;
                      reply_files := Some files |}
      end
  end.

End Command.
End Command.

(** ** More vocabulary *)

Section Shapes.
Context `{Patterns}.

(** The match that a URL gives when the link shapes are tried in the
    order of the table: the first shape whose pattern matches decides. *)
Definition shapeOf (rev : Revision) (u : string) : option GitHubMatchResult :=
  match NormalGitHubUrlRegex u with
  | Some regexMatch =>
      match whole regexMatch with
      | EmptyString => None
      | _ => Some {| url := whole regexMatch;
                     opts := g_opts regexMatch;
                     type := Normal;
                     regex := NormalGitHubUrlRegex;
                     converter := Common.normalConverter |}
      end
  | None =>
      match GistGitHubUrlRegex u with
      | Some regexMatch =>
          match whole regexMatch with
          | EmptyString => None
          | _ => Some {| url := whole regexMatch;
                         opts := g_opts regexMatch;
                         type := Gist;
                         regex := GistGitHubUrlRegex;
                         converter := gistConverterOf rev |}
          end
      | None => None
      end
  end.

End Shapes.

(** A name without [/]. *)
Fixpoint plain (s : string) : bool :=
  match s with
  | EmptyString => true
  | String c s' => negb (Ascii.eqb c "/") && plain s'
  end.

(** A line marker [-L<digits>]. *)
Definition marker (digits : string) : string := "-L" +:+ digits.

Definition digits (s : string) : bool :=
  Str.all_digits s && negb (String.eqb s EmptyString).

(** The name of a gist file as it is looked up. *)
Definition dashed (fileName : string) : string := Str.replaceAll "." "-" fileName.

(** Does [parsedFiles], built from the files of a gist, inherit a value
    under the name [k]? It inherits the functions of
    [Object.prototype] and [__proto__], and [raw] and [parsed] when a
    file of the gist has the dashed name [__proto__]. *)
Definition inheritedName (gist_files : list (string * string)) (k : string)
  : bool :=
  String.eqb k "__proto__"
  || bool_decide (k ∈ GistApi.objectPrototypeNames)
  || (bool_decide (Exists (fun e => dashed (fst e) = "__proto__") gist_files)
      && (String.eqb k "raw" || String.eqb k "parsed")).

(** ** A concrete environment

    The patterns and helpers imported by the handler are not part of
    the sources at hand. The definitions below follow their
    description and serve to run the handler on concrete inputs. *)

Module Model.

Definition show (z : Z) : string := DecimalString.NilZero.string_of_int (Z.to_int z).

Definition show_num (v : Js.num) : string :=
  match v with
  | Js.Undefined => "undefined"
  | Js.NaN => "NaN"
  | Js.Num z => show z
  end.

Fixpoint repeat_string (n : nat) (s : string) : string :=
  match n with
  | O => EmptyString
  | S n' => s +:+ repeat_string n' s
  end.

(** The text of [s] before the first [c]. *)
Fixpoint before (c : ascii) (s : string) : string :=
  match s with
  | EmptyString => EmptyString
  | String a s' => if Ascii.eqb a c then EmptyString else String a (before c s')
  end.

(** The text of [s] after the first [c], if [c] occurs. *)
Fixpoint after (c : ascii) (s : string) : option string :=
  match s with
  | EmptyString => None
  | String a s' => if Ascii.eqb a c then Some s' else after c s'
  end.

(** The suffix of [s] that starts at the first occurrence of [p]. *)
Fixpoint from (p s : string) : option string :=
  if String.prefix p s then Some s
  else match s with
       | EmptyString => None
       | String _ s' => from p s'
       end.

Fixpoint read_number (acc : Z) (s : string) : Z * string :=
  match s with
  | EmptyString => (acc, s)
  | String c s' =>
      match Ascii.is_nat c with
      | Some d => read_number (10 * acc + Z.of_nat d) s'
      | None => (acc, s)
      end
  end.

(** The first [L<digits>] of [s]: its number and the text after it. *)
Fixpoint find_marker (s : string) : option (Z * string) :=
  match s with
  | EmptyString => None
  | String c s' =>
      match s' with
      | String d _ =>
          if Ascii.eqb c "L" && Str.is_digit d then Some (read_number 0 s')
          else find_marker s'
      | EmptyString => None
      end
  end.

(** Modelled from the spec: [resolveLines] of functions/github/utils.js
    is missing. A qualifier [L<digits>] or [L<digits>-L<digits>] gives
    the start and end line; without a line marker [startLine] defaults
    to 1 and [endLine] is undefined; with only a start marker [endLine]
    is undefined. *)
Definition resolveLines (o : option string) : LineRange :=
  match o ≫= find_marker with
  | None => {| startLine := Js.Num 1; endLine := Js.Undefined |}
  | Some (a, rest) =>
      match rest with
      | String "-" (String "L" (String d _ as digits)) =>
          if Str.is_digit d
          then {| startLine := Js.Num a;
                  endLine := Js.Num (fst (read_number 0 digits)) |}
          else {| startLine := Js.Num a; endLine := Js.Undefined |}
      | _ => {| startLine := Js.Num a; endLine := Js.Undefined |}
      end
  end.

(** The text after the last [c] of [s], if [c] occurs. *)
Fixpoint after_last (c : ascii) (s : string) : option string :=
  match s with
  | EmptyString => None
  | String a s' =>
      match after_last c s' with
      | Some r => Some r
      | None => if Ascii.eqb a c then Some s' else None
      end
  end.

Definition lower (c : ascii) : ascii :=
  let n := nat_of_ascii c in
  if (65 <=? n)%nat && (n <=? 90)%nat then ascii_of_nat (n + 32) else c.

Fixpoint lowercase (s : string) : string :=
  match s with
  | EmptyString => EmptyString
  | String c s' => String (lower c) (lowercase s')
  end.

(** Modelled from the spec: [resolveFileLanguage] of
    functions/github/utils.js is missing. The tag is the lowercase
    file extension of the path (fragment and query left out), and
    [ansi] when there is none. *)
Definition resolveFileLanguage (p : string) : string :=
  let file := before "?" (before "#" p) in
  let file := default file (after_last "/" file) in
  match after_last "." file with
  | None | Some EmptyString => "ansi"
  | Some ext => lowercase ext
  end.

(** Modelled from the spec: [generateHeader] of
    functions/github/utils.js is missing. The header is the path plus
    the line range, marked when the range is ellipsed. *)
Definition generateHeader (s e : Js.num) (p : string) (ellipsed : option bool)
  : string :=
  p +:+ " L" +:+ show_num s +:+ "-L" +:+ show_num e
    +:+ (if default false ellipsed then " (ellipsed)" else EmptyString).

(** Modelled from the spec: [formatLine] of functions/github/utils.js
    is missing. A line is prefixed with its absolute line number,
    aligned to the width of the end line; the styling of the
    no-highlight language is left out. *)
Definition formatLine (line : string) (s e : Js.num) (index : nat) (ansi : bool)
  : string :=
  let number := show_num (Js.add s (Js.Num (Z.of_nat index))) in
  let width := String.length (show_num e) in
  repeat_string (width - String.length number) " " +:+ number +:+ " " +:+ line.

Fixpoint indent (s : string) : nat :=
  match s with
  | String " " s' => S (indent s')
  | _ => O
  end.

(** Modelled from the spec: [trimLeadingIndent] of util/array.js is
    missing. The leading indentation shared by all lines is removed. *)
Definition trimLeadingIndent (lines : list string) : list string :=
  match lines with
  | [] => []
  | l :: ls =>
      let common := fold_left Nat.min (map indent ls) (indent l) in
      map (Str.drop common) lines
  end.

Fixpoint take_within (lines : list string) (budget : Z) : list string :=
  match lines with
  | [] => []
  | l :: ls =>
      if Str.len l <=? budget then l :: take_within ls (budget - Str.len l)
      else []
  end.

(** Modelled from the spec: [truncateArray] of util/array.js is
    missing. The list is cut to the longest prefix whose lines stay
    within the budget. *)
Definition truncateArray (lines : list string) (budget : Z) : list string :=
  take_within lines budget.

Definition is_space (c : ascii) : bool :=
  Ascii.eqb c " " || Ascii.eqb c (ascii_of_nat 10) || Ascii.eqb c (ascii_of_nat 9).

(** The maximal runs of characters of [s] that are not white space;
    the head of the result is the run that starts [s]. *)
Fixpoint words (s : string) : list string :=
  match s with
  | EmptyString => [EmptyString]
  | String c s' =>
      if is_space c then EmptyString :: words s'
      else match words s' with
           | w :: ws => String c w :: ws
           | [] => [String c EmptyString]
           end
  end.

Definition url_in (w : string) : option string :=
  match from "https://" w with
  | Some u => Some u
  | None => from "http://" w
  end.

(** Modelled from the spec: [URL_REGEX] of util/constants.js is
    missing. Its matches are the substrings of the text that start
    with a scheme and run up to the next white space. *)
Definition URL_REGEX (t : string) : list string := omap url_in (words t).

Definition nonempty (s : string) : option string :=
  match s with
  | EmptyString => None
  | _ => Some s
  end.

(** Modelled from the spec: [NormalGitHubUrlRegex] of
    functions/github/regex.js is missing. It matches a direct file
    blob or blame link; the group [opts] is the line-range suffix
    after [#]. *)
Definition NormalGitHubUrlRegex : RegExp := fun s =>
  match from "https://github.com/" s with
  | None => None
  | Some u =>
      if Str.includes "/blob/" u || Str.includes "/blame/" u
      then Some {| whole := u; g_user := None; g_id := None;
                   g_opts := after "#" u ≫= nonempty |}
      else None
  end.

(** Modelled from the spec: [GistGitHubUrlRegex] of
    functions/github/regex.js is missing. It matches a paste link
    [https://gist.github.com/<user>/<id>#file-<opts>]; a part that is
    not there leaves its group undefined. *)
Definition GistGitHubUrlRegex : RegExp := fun s =>
  match from "https://gist.github.com/" s with
  | None => None
  | Some u =>
      let rest := Str.drop 24 u in
      let names := before "#" rest in
      let qualifier := after "#" rest ≫= from "file-" in
      Some {| whole := u;
              g_user := match after "/" names with
                        | Some _ => nonempty (before "/" names)
                        | None => None
                        end;
              g_id := match after "/" names with
                      | Some id => nonempty id
                      | None => nonempty names
                      end;
              g_opts := (Str.drop 5 <$> qualifier) ≫= nonempty |}
  end.

Definition patterns : Patterns :=
  Build_Patterns URL_REGEX NormalGitHubUrlRegex GistGitHubUrlRegex.

Definition utils : Utils :=
  Build_Utils resolveLines resolveFileLanguage generateHeader formatLine
    trimLeadingIndent truncateArray.

(** [new URL(u).pathname] for an http(s) URL; other text throws. *)
Definition pathname (u : string) : outcome string :=
  let after_scheme :=
    if String.prefix "https://" u then Some (Str.drop 8 u)
    else if String.prefix "http://" u then Some (Str.drop 7 u)
    else None in
  match after_scheme with
  | None => Thrown
  | Some r =>
      let r := before "?" (before "#" r) in
      Returned (default "/" (from "/" r))
  end.

Definition notFound : Response :=
  {| status := 404; text := "404: Not Found"; json := Thrown |}.

Definition ok (body : string) : Response :=
  {| status := 200; text := body; json := Thrown |}.

Definition okGist (gist_files : list (string * string)) : Response :=
  {| status := 200; text := "{...}"; json := Returned (Some (RawGist gist_files)) |}.

(** A network that answers the listed URLs (the fragment of the URL is
    not sent) and has nothing else. *)
Definition serve (table : list (string * outcome Response)) (u : string)
  : outcome Response :=
  default (Returned notFound)
    (snd <$> List.find (fun e => String.eqb (fst e) (before "#" u)) table).

Definition world (table : list (string * outcome Response)) : World :=
  Build_World (serve table) pathname.

End Model.


(** ** Concrete messages and networks *)

Module Scenario.

(** The example link of the specification. *)
Definition link : string := "https://github.com/u/r/blob/main/f.go#L5-L10".

Definition numbered (n : nat) : string :=
  Str.join Str.nl (map (fun i => "  line " +:+ Model.show (Z.of_nat i)) (seq 1 n)).

(** A gist with one file whose third line has a code fence. *)
Definition notes : list (string * string) :=
  [("notes.md",
    "a" +:+ Str.nl +:+ "b" +:+ Str.nl +:+ "c```" +:+ Str.nl +:+ "d")].

(** A network with a 50-line file behind [link] and the gist [notes]. *)
Definition net : World :=
  Model.world
    [("https://raw.githubusercontent.com/u/r/main/f.go",
      Returned (Model.ok (numbered 50)));
     ("https://api.github.com/gists/0123abcd", Returned (Model.okGist notes));
     ("https://gist.githubusercontent.com/me/0123abcd/raw/notes.md",
      Returned (Model.ok
                  ("a" +:+ Str.nl +:+ "b" +:+ Str.nl +:+ "c```" +:+ Str.nl +:+ "d")))].

(** The matches of a message, [[]] if matching throws. *)
Definition matchesOf (rev : Revision) (t : string) : list GitHubMatchResult :=
  match @matchGitHubUrlsOf Model.patterns rev t with
  | Returned ms => ms
  | Thrown => []
  end.

Definition resolve (W : World) (rev : Revision) (t : string)
  : outcome (list ResolvedGitHubResult) :=
  @resolveGitHubResultsOf Model.utils W rev (matchesOf rev t).

(** A link to a file 500 directories deep, and a network that has it. *)
Definition deepLink : string :=
  "https://github.com/u/r/blob/main/" +:+ Model.repeat_string 500 "dir/"
    +:+ "f.md#L1".

Definition deepNet : World :=
  Model.world
    [("https://raw.githubusercontent.com/u/r/main/"
        +:+ Model.repeat_string 500 "dir/" +:+ "f.md",
      Returned (Model.ok "```"))].

(** A link to 600 lines of a file of 600 one-character lines. *)
Definition longLink : string := "https://github.com/u/r/blob/main/f.txt#L1-L600".

Definition longNet : World :=
  Model.world
    [("https://raw.githubusercontent.com/u/r/main/f.txt",
      Returned (Model.ok (Str.join Str.nl (repeat "x" 600))))].

(** Two links; the request for the first one is rejected. *)
Definition twoLinks : string :=
  "https://github.com/u/r/blob/main/a.go#L1 https://github.com/u/r/blob/main/b.go#L1".

Definition flakyNet : World :=
  Model.world
    [("https://raw.githubusercontent.com/u/r/main/a.go", Thrown);
     ("https://raw.githubusercontent.com/u/r/main/b.go", Returned (Model.ok "x"))].

(** A gist link without a user part. *)
Definition anonymousGist : string := "https://gist.github.com/0123abcd#file-notes-md".

(** A link whose owner name starts with [blob]. *)
Definition blobfishLink : string :=
  "https://github.com/blobfish/r/blob/main/f.go#L5-L10".

(** A gist link with a line range, its match and its slice. *)
Definition gistLink : string :=
  "https://gist.github.com/me/0123abcd#file-notes-md-L2-L3".

Definition gistMatch (rev : Revision) : GitHubMatchResult :=
  {| converter := @gistConverterOf Model.patterns rev;
     opts := Some "notes-md-L2-L3";
     regex := Model.GistGitHubUrlRegex;
     type := Gist;
     url := gistLink |}.

Definition gistSlice : Common.Slice :=
  {| Common.s_type := Gist;
     Common.s_path := "/me/0123abcd#file-notes-md";
     Common.s_lang := "md";
     Common.parsedLines := ["a"; "b"; "c```"; "d"];
     Common.safeStartLine := Js.Num 2;
     Common.safeEndLine := Js.Num 3 |}.

(** The match and the slice of [longLink]. *)
Definition longMatch : GitHubMatchResult :=
  {| converter := Common.normalConverter;
     opts := Some "L1-L600";
     regex := Model.NormalGitHubUrlRegex;
     type := Normal;
     url := longLink |}.

Definition longSlice : Common.Slice :=
  {| Common.s_type := Normal;
     Common.s_path := "/u/r/blob/main/f.txt";
     Common.s_lang := "txt";
     Common.parsedLines := repeat "x" 600;
     Common.safeStartLine := Js.Num 1;
     Common.safeEndLine := Js.Num 600 |}.

(** The match and the slice of [link]. *)
Definition linkMatch : GitHubMatchResult :=
  {| converter := Common.normalConverter;
     opts := Some "L5-L10";
     regex := Model.NormalGitHubUrlRegex;
     type := Normal;
     url := link |}.

Definition linkSlice : Common.Slice :=
  {| Common.s_type := Normal;
     Common.s_path := "/u/r/blob/main/f.go";
     Common.s_lang := "go";
     Common.parsedLines := Str.split (ascii_of_nat 10) (numbered 50);
     Common.safeStartLine := Js.Num 5;
     Common.safeEndLine := Js.Num 10 |}.

(** The match of [anonymousGist]. *)
Definition anonymousMatch (rev : Revision) : GitHubMatchResult :=
  {| converter := @gistConverterOf Model.patterns rev;
     opts := Some "notes-md";
     regex := Model.GistGitHubUrlRegex;
     type := Gist;
     url := anonymousGist |}.

(** The helpers of [Model.utils] with a range resolver that always
    answers [range]. *)
Definition utilsWithRange (range : LineRange) : Utils :=
  Build_Utils (fun _ => range) Model.resolveFileLanguage Model.generateHeader
    Model.formatLine Model.trimLeadingIndent Model.truncateArray.

End Scenario.

(** ** More messages and networks *)

Module Cases.

Definition reply (W : World) (rev : Revision) (t : string)
  : outcome InteractionReplyOptions :=
  @Command.messageContext Model.patterns Model.utils W rev t.

(** The results for a message, [[]] if resolving throws. *)
Definition resultsOf (W : World) (rev : Revision) (t : string)
  : list ResolvedGitHubResult :=
  match Scenario.resolve W rev t with
  | Returned rs => rs
  | Thrown => []
  end.

(** The reply to a message, the fixed reply if the command throws. *)
Definition replyOf (W : World) (rev : Revision) (t : string)
  : InteractionReplyOptions :=
  match reply W rev t with
  | Returned r => r
  | Thrown => @Command.nothingFound
  end.

(** A message with the example link and a gist link. *)
Definition twoShapes : string := Scenario.link +:+ " " +:+ Scenario.gistLink.

(** A message whose only URL has neither shape. *)
Definition noLink : string := "see https://example.com/readme for details".

(** A link to a file that the network of [Scenario.net] does not have. *)
Definition missingLink : string := "https://github.com/u/r/blob/main/missing.go#L1".

Definition missingMatch : GitHubMatchResult :=
  {| converter := Common.normalConverter;
     opts := Some "L1";
     regex := Model.NormalGitHubUrlRegex;
     type := Normal;
     url := missingLink |}.

(** A link to an empty file and a network that has it. *)
Definition emptyLink : string := "https://github.com/u/r/blob/main/empty.txt#L1".

Definition emptyMatch : GitHubMatchResult :=
  {| converter := Common.normalConverter;
     opts := Some "L1";
     regex := Model.NormalGitHubUrlRegex;
     type := Normal;
     url := emptyLink |}.

Definition emptyNet : World :=
  Model.world
    [("https://raw.githubusercontent.com/u/r/main/empty.txt",
      Returned (Model.ok EmptyString))].

(** A gist link whose qualifier names no file of the gist [notes]. *)
Definition otherFileMatch : GitHubMatchResult :=
  {| converter := @gistConverterOf Model.patterns MetadataApi;
     opts := Some "other-md-L1";
     regex := Model.GistGitHubUrlRegex;
     type := Gist;
     url := "https://gist.github.com/me/0123abcd#file-other-md-L1" |}.

(** The slice of [Scenario.link] when the range resolver answers
    [range]. *)
Definition linkSliceWith (rev : Revision) (range : LineRange) : Common.Slice :=
  {| Common.s_type := Normal;
     Common.s_path := "/u/r/blob/main/f.go";
     Common.s_lang := "go";
     Common.parsedLines := Str.split (ascii_of_nat 10) (Scenario.numbered 50);
     Common.safeStartLine := fst (safeLinesOf rev range 50);
     Common.safeEndLine := snd (safeLinesOf rev range 50) |}.

(** A gist link whose qualifier is [constructor]. *)
Definition constructorMatch : GitHubMatchResult :=
  {| converter := @gistConverterOf Model.patterns MetadataApi;
     opts := Some "constructor";
     regex := Model.GistGitHubUrlRegex;
     type := Gist;
     url := "https://gist.github.com/me/0123abcd#file-constructor" |}.

(** The first match of the two links of [Scenario.twoLinks]. *)
Definition rejectedMatch : GitHubMatchResult :=
  {| converter := Common.normalConverter;
     opts := Some "L1";
     regex := Model.NormalGitHubUrlRegex;
     type := Normal;
     url := "https://github.com/u/r/blob/main/a.go#L1" |}.

End Cases.

(** * Properties of the handler *)

(** ** The primitives *)

Example slice_inner : Js.slice [1; 2; 3; 4; 5]%nat (Js.Num 1) (Js.Num 3) = [2; 3]%nat.
Proof. reflexivity. Qed.

Example slice_negative : Js.slice [1; 2; 3; 4; 5]%nat (Js.Num (-2)) Js.Undefined = [4; 5]%nat.
Proof. reflexivity. Qed.

Example slice_nan : Js.slice [1; 2; 3]%nat Js.NaN Js.NaN = [].
Proof. reflexivity. Qed.

Example split_lines :
  Str.split "-" "file-md-L3" = ["file"; "md"; "L3"].
Proof. reflexivity. Qed.

Example remove_markers_first :
  Str.remove_markers "a-L1-L22b-L3" = "ab-L3".
Proof. reflexivity. Qed.

Example remove_all_markers_ex :
  Str.remove_all_markers "f-md-L1-L22x-L3-Lx" = "f-mdx-Lx".
Proof. reflexivity. Qed.

Example remove_end_marker_ex :
  Str.remove_end_marker (Str.remove_end_marker "f-md-L1-L22") = "f-md".
Proof. reflexivity. Qed.

Lemma split_nonempty (sep : ascii) (s : string) : Str.split sep s <> [].
Proof.
  destruct s as [|c s]; simpl; [discriminate|].
  destruct (Ascii.eqb c sep); [discriminate|].
  destruct (Str.split sep s); discriminate.
Qed.

Lemma split_length (sep : ascii) (s : string) : (1 <= length (Str.split sep s))%nat.
Proof.
  pose proof (split_nonempty sep s) as Hne.
  destruct (Str.split sep s); [congruence | simpl; lia].
Qed.

Lemma slice_whole {A} (arr : list A) :
  Js.slice arr (Js.Num 0) (Js.Num (Z.of_nat (length arr))) = arr.
Proof.
  unfold Js.slice, Js.relative; simpl Js.to_integer.
  rewrite Z.ltb_irrefl.
  destruct (Z.ltb_spec (Z.of_nat (length arr)) 0) as [Hneg|_]; [lia|].
  rewrite Z.min_id, Z.min_l by lia.
  rewrite Z.sub_0_r, Nat2Z.id. simpl. apply firstn_all.
Qed.

Lemma slice_single {A} (arr : list A) (z : Z) (x : A) :
  0 < z ->
  arr !! Z.to_nat (z - 1) = Some x ->
  Js.slice arr (Js.Num (z - 1)) (Js.Num z) = [x].
Proof.
  intros Hz Hx.
  pose proof (lookup_lt_Some _ _ _ Hx) as Hlt.
  unfold Js.slice, Js.relative; simpl Js.to_integer.
  destruct (Z.ltb_spec (z - 1) 0) as [?|_]; [lia|].
  destruct (Z.ltb_spec z 0) as [?|_]; [lia|].
  rewrite !Z.min_l by lia.
  replace (Z.to_nat (z - (z - 1))) with 1%nat by lia.
  rewrite (drop_S _ _ _ Hx). reflexivity.
Qed.

(** ** The loop of [resolveGitHubResults] *)

Section LoopFacts.
Context (body : GitHubMatchResult -> outcome (option ResolvedGitHubResult)).

Lemma loop_acc (ms : list GitHubMatchResult) (acc : list ResolvedGitHubResult) :
  Common.loop body ms acc
  = let! rs := Common.loop body ms [] in Returned (acc ++ rs).
Proof.
  revert acc; induction ms as [|m ms IH]; intros acc; simpl.
  - by rewrite app_nil_r.
  - destruct (body m) as [[r|]|]; simpl; auto.
    rewrite (IH (acc ++ [r])), (IH [r]).
    destruct (Common.loop body ms []); simpl; auto.
    by rewrite <- app_assoc.
Qed.

Lemma loop_cons (m : GitHubMatchResult) (ms : list GitHubMatchResult) :
  Common.loop body (m :: ms) []
  = let! r := body m in
    let! rs := Common.loop body ms [] in
    Returned (option_list r ++ rs).
Proof.
  simpl. destruct (body m) as [[r|]|]; simpl; auto.
  - apply loop_acc.
  - destruct (Common.loop body ms []); reflexivity.
Qed.

Lemma loop_app (ms1 ms2 : list GitHubMatchResult) :
  Common.loop body (ms1 ++ ms2) []
  = let! a := Common.loop body ms1 [] in
    let! b := Common.loop body ms2 [] in
    Returned (a ++ b).
Proof.
  induction ms1 as [|m ms1 IH].
  - simpl. destruct (Common.loop body ms2 []); reflexivity.
  - rewrite <- app_comm_cons, !loop_cons, IH.
    destruct (body m) as [r|]; simpl; auto.
    destruct (Common.loop body ms1 []) as [a|]; simpl; auto.
    destruct (Common.loop body ms2 []) as [b|]; simpl; auto.
    by rewrite app_assoc.
Qed.

Lemma loop_characterised (ms : list GitHubMatchResult) :
  Common.loop body ms []
  = if forallb (fun m => returns (body m)) ms
    then Returned (omap (pushed body) ms)
    else Thrown.
Proof.
  induction ms as [|m ms IH]; [reflexivity|].
  rewrite loop_cons, IH. simpl. unfold pushed at 2.
  destruct (body m) as [[r|]|]; simpl; auto;
    destruct (forallb _ ms); reflexivity.
Qed.

Lemma loop_skip (m : GitHubMatchResult) (ms1 ms2 : list GitHubMatchResult) :
  body m = Returned None ->
  Common.loop body (ms1 ++ m :: ms2) [] = Common.loop body (ms1 ++ ms2) [].
Proof.
  intros Hm. rewrite !loop_app, loop_cons, Hm. simpl.
  destruct (Common.loop body ms1 []) as [a|]; simpl; auto.
  destruct (Common.loop body ms2 []); reflexivity.
Qed.

Lemma loop_Forall (P : ResolvedGitHubResult -> Prop)
    (ms : list GitHubMatchResult) (rs : list ResolvedGitHubResult) :
  (forall m r, m ∈ ms -> body m = Returned (Some r) -> P r) ->
  Common.loop body ms [] = Returned rs ->
  Forall P rs.
Proof.
  revert rs; induction ms as [|m ms IH]; intros rs HP.
  - simpl. intros [= <-]. constructor.
  - rewrite loop_cons.
    destruct (body m) as [r|] eqn:Hm; simpl; [|discriminate].
    destruct (Common.loop body ms []) as [rs'|]; simpl; [|discriminate].
    intros [= <-]. apply Forall_app. split.
    + destruct r as [r|]; simpl; [|constructor].
      constructor; [|constructor]. apply (HP m); [left | done].
    + apply IH; [|done]. intros m' r' Hin. apply HP. by right.
Qed.

End LoopFacts.

(** ** Strings *)

Lemma append_cons (c : ascii) (p r : string) :
  String c p +:+ r = String c (p +:+ r).
Proof. reflexivity. Qed.

Lemma prefix_app (p s : string) :
  String.prefix p s = true <-> exists rest, s = p +:+ rest.
Proof.
  revert s; induction p as [|c p IH]; intros s.
  - split; [intros _; by exists s | intros _; by destruct s].
  - destruct s as [|d s]; cbn.
    + split; [done | intros [rest Hrest]; discriminate].
    + destruct (ascii_dec c d) as [->|Hne].
      * rewrite IH. split; intros [rest Hrest]; exists rest.
        -- by rewrite Hrest.
        -- rewrite append_cons in Hrest. by injection Hrest.
      * split; [done | intros [rest Hrest]].
        rewrite append_cons in Hrest. congruence.
Qed.

Lemma includes_nil (needle : string) :
  Str.includes needle EmptyString = String.prefix needle EmptyString || false.
Proof. reflexivity. Qed.

Lemma includes_cons (needle : string) (c : ascii) (s : string) :
  Str.includes needle (String c s)
  = String.prefix needle (String c s) || Str.includes needle s.
Proof. reflexivity. Qed.

(** [includes] holds exactly when the needle occurs in the string. *)
Lemma includes_spec (needle s : string) :
  Str.includes needle s = true
  <-> exists before rest, s = before +:+ needle +:+ rest.
Proof.
  induction s as [|c s IH].
  - rewrite includes_nil, orb_false_r, prefix_app. split.
    + intros [rest Hrest]. by exists EmptyString, rest.
    + intros ([|d before] & rest & Hs); [by exists rest | discriminate].
  - rewrite includes_cons, orb_true_iff, prefix_app, IH. split.
    + intros [[rest Hrest] | (before & rest & Hs)].
      * by exists EmptyString, rest.
      * exists (String c before), rest. by rewrite Hs.
    + intros ([|d before] & rest & Hs).
      * left. by exists rest.
      * right. exists before, rest. rewrite append_cons in Hs. by injection Hs.
Qed.

Lemma hasCodeBlock_spec (s : Common.Slice) :
  Common.hasCodeBlock s = true
  <-> exists line before rest,
        line ∈ Common.linesRequested s /\ line = before +:+ "```" +:+ rest.
Proof.
  unfold Common.hasCodeBlock. rewrite existsb_exists. split.
  - intros (line & Hin & Hinc). apply includes_spec in Hinc as (b & r & ->).
    exists (b +:+ "```" +:+ r), b, r. split; [by apply list_elem_of_In | done].
  - intros (line & b & r & Hin & ->).
    exists (b +:+ "```" +:+ r). split; [by apply list_elem_of_In|].
    apply includes_spec. by exists b, r.
Qed.

(** ** One iteration *)

Section IterationFacts.
Context {P : Patterns} {U : Utils} {W : World}.

Lemma render_cases (s : Common.Slice) :
  (Common.hasCodeBlock s = true /\ Common.render s = Common.attachmentResult s)
  \/ (Common.hasCodeBlock s = false /\ 2000 <= Str.len (Common.inlineContent s)
      /\ Common.render s = Common.attachmentResult s)
  \/ (Common.hasCodeBlock s = false /\ Str.len (Common.inlineContent s) < 2000
      /\ Common.render s
         = {| content := Common.inlineContent s; files := [] |}).
Proof.
  unfold Common.render.
  destruct (Common.hasCodeBlock s); [by left | right].
  destruct (Z.leb_spec 2000 (Str.len (Common.inlineContent s))); [left | right];
    done.
Qed.

Lemma resolveMatch_fetchSlice (rev : Revision) (m : GitHubMatchResult) :
  resolveMatchOf rev m
  = let! s := fetchSliceOf rev m in Returned (Common.render <$> s).
Proof. by destruct rev. Qed.

Lemma resolveMatch_pushed (rev : Revision) (m : GitHubMatchResult)
    (r : ResolvedGitHubResult) :
  resolveMatchOf rev m = Returned (Some r)
  <-> exists s, fetchSliceOf rev m = Returned (Some s) /\ r = Common.render s.
Proof.
  rewrite resolveMatch_fetchSlice.
  destruct (fetchSliceOf rev m) as [[s|]|]; simpl; split.
  - intros [= <-]. by exists s.
  - intros (s' & [= <-] & ->). done.
  - done.
  - intros (s' & [=] & _).
  - done.
  - intros (s' & [=] & _).
Qed.

Lemma resolveGitHubResults_loop (rev : Revision) (ms : list GitHubMatchResult) :
  resolveGitHubResultsOf rev ms = Common.loop (resolveMatchOf rev) ms [].
Proof. by destruct rev. Qed.

(** A pushed result is placed between the results of the matches
    before and after it. *)
Lemma resolveGitHubResults_place (rev : Revision) (m : GitHubMatchResult)
    (s : Common.Slice) (ms1 ms2 : list GitHubMatchResult)
    (rs1 rs2 : list ResolvedGitHubResult) :
  fetchSliceOf rev m = Returned (Some s) ->
  resolveGitHubResultsOf rev ms1 = Returned rs1 ->
  resolveGitHubResultsOf rev ms2 = Returned rs2 ->
  resolveGitHubResultsOf rev (ms1 ++ m :: ms2)
  = Returned (rs1 ++ Common.render s :: rs2).
Proof.
  rewrite !resolveGitHubResults_loop. intros Hs Hrs1 Hrs2.
  rewrite loop_app, loop_cons, Hrs1, Hrs2, resolveMatch_fetchSlice, Hs.
  reflexivity.
Qed.

Lemma fetchSlice_clamped (rev : Revision) (m : GitHubMatchResult)
    (s : Common.Slice) :
  fetchSliceOf rev m = Returned (Some s) ->
  Common.s_type s = type m
  /\ (exists contents, Common.parsedLines s = Str.split (ascii_of_nat 10) contents)
  /\ (Common.safeStartLine s, Common.safeEndLine s)
     = safeLinesOf rev (resolveLines (opts m)) (length (Common.parsedLines s)).
Proof.
  destruct rev; simpl; intros Hs.
  - unfold RawUrl.fetchSlice, obind in Hs.
    repeat case_match; simplify_eq; simpl; eauto.
  - unfold GistApi.fetchSlice, obind in Hs.
    repeat case_match; simplify_eq; simpl; eauto.
Qed.

End IterationFacts.


(** ** Order of the results (C9) *)

Lemma omap_length_le {A B} (f : A -> option B) (l : list A) :
  (length (omap f l) <= length l)%nat.
Proof.
  induction l as [|a l IH]; csimpl; [lia|].
  destruct (f a); csimpl; lia.
Qed.

Section Order.
Context {U : Utils} {W : World}.

(** C9, amended. [resolveGitHubResults] returns, in input order, the
    result of every match whose iteration pushes one, and nothing for a
    match whose iteration skips; this holds when no iteration throws.
    When an iteration throws (a rejected request, a URL that does not
    parse), the call as a whole throws and returns no list. *)
Theorem resolveGitHubResults_in_input_order (rev : Revision)
    (ms : list GitHubMatchResult) :
  resolveGitHubResultsOf rev ms
  = (if forallb (fun m => returns (resolveMatchOf rev m)) ms
     then Returned (omap (pushed (resolveMatchOf rev)) ms)
     else Thrown)
  /\ (length (omap (pushed (resolveMatchOf rev)) ms) <= length ms)%nat.
Proof.
  split; [|apply omap_length_le].
  rewrite resolveGitHubResults_loop. apply loop_characterised.
Qed.

End Order.

(** C9 as stated fails: the second link resolves on its own, but with
    the first link, whose request is rejected, the call returns no
    result at all. *)
Lemma rejected_request_loses_every_result :
  map url (Scenario.matchesOf MetadataApi Scenario.twoLinks)
  = ["https://github.com/u/r/blob/main/a.go#L1";
     "https://github.com/u/r/blob/main/b.go#L1"]
  /\ Scenario.resolve Scenario.flakyNet MetadataApi
       "https://github.com/u/r/blob/main/b.go#L1"
     = Returned
         [ {| content :=
                "/u/r/blob/main/b.go L1-L1" +:+ Str.nl +:+ "```go" +:+ Str.nl
                  +:+ "1 x" +:+ Str.nl +:+ "```";
              files := [] |} ]
  /\ Scenario.resolve Scenario.flakyNet MetadataApi Scenario.twoLinks = Thrown
  /\ Scenario.resolve Scenario.flakyNet PerFileRawUrl Scenario.twoLinks = Thrown.
Proof. vm_compute. auto. Qed.

(** ** Size of the content (C1) *)

Section Content.
Context {U : Utils} {W : World}.

(** C1, amended. Every result either has an inline content of fewer
    than 2000 characters and no file, or has as content the header
    generated for the clamped range of its match, with one file. The
    length of that header is not bounded by the handler. *)
Theorem content_short_or_header (rev : Revision) (ms : list GitHubMatchResult)
    (rs : list ResolvedGitHubResult) :
  resolveGitHubResultsOf rev ms = Returned rs ->
  Forall
    (fun r =>
       (Str.len (content r) < 2000 /\ files r = [])
       \/ (exists m s,
             m ∈ ms /\ fetchSliceOf rev m = Returned (Some s)
             /\ content r
                = generateHeader (Common.safeStartLine s) (Common.safeEndLine s)
                    (Common.s_path s) None
             /\ length (files r) = 1%nat))
    rs.
Proof.
  rewrite resolveGitHubResults_loop. apply loop_Forall.
  intros m r Hin Hr. apply resolveMatch_pushed in Hr as (s & Hs & ->).
  destruct (render_cases s) as [[_ ->] | [(_ & _ & ->) | (_ & Hlen & ->)]].
  - right. by exists m, s.
  - right. by exists m, s.
  - left. done.
Qed.

End Content.

Lemma content_short_or_header_witness :
  Scenario.resolve Scenario.net MetadataApi Scenario.link
  = Returned
      [ {| content :=
             "/u/r/blob/main/f.go L5-L10" +:+ Str.nl +:+ "```go" +:+ Str.nl
               +:+ " 5 line 5" +:+ Str.nl +:+ " 6 line 6" +:+ Str.nl
               +:+ " 7 line 7" +:+ Str.nl +:+ " 8 line 8" +:+ Str.nl
               +:+ " 9 line 9" +:+ Str.nl +:+ "10 line 10" +:+ Str.nl +:+ "```";
           files := [] |} ]
  /\ Forall
       (fun r =>
          (Str.len (content r) < 2000 /\ files r = [])
          \/ (exists m s,
                m ∈ Scenario.matchesOf MetadataApi Scenario.link
                /\ @fetchSliceOf Model.utils Scenario.net MetadataApi m
                   = Returned (Some s)
                /\ content r
                   = Model.generateHeader (Common.safeStartLine s)
                       (Common.safeEndLine s) (Common.s_path s) None
                /\ length (files r) = 1%nat))
       [ {| content :=
             "/u/r/blob/main/f.go L5-L10" +:+ Str.nl +:+ "```go" +:+ Str.nl
               +:+ " 5 line 5" +:+ Str.nl +:+ " 6 line 6" +:+ Str.nl
               +:+ " 7 line 7" +:+ Str.nl +:+ " 8 line 8" +:+ Str.nl
               +:+ " 9 line 9" +:+ Str.nl +:+ "10 line 10" +:+ Str.nl +:+ "```";
           files := [] |} ].
Proof.
  split; [vm_compute; reflexivity|].
  apply (@content_short_or_header Model.utils Scenario.net MetadataApi
           (Scenario.matchesOf MetadataApi Scenario.link)).
  vm_compute; reflexivity.
Defined.

(** C1 as stated fails: for a link to a file 500 directories deep the
    content is the header, which has 2025 characters. *)
Lemma deep_path_content_exceeds_2000 :
  exists r,
    Scenario.resolve Scenario.deepNet MetadataApi Scenario.deepLink = Returned [r]
    /\ Str.len (content r) = 2025
    /\ length (files r) = 1%nat.
Proof.
  eexists. split; [vm_compute; reflexivity|]. vm_compute. auto.
Qed.

(** ** Attachment mode (C2, C6) *)

Section Attachment.
Context {U : Utils} {W : World}.

(** The result of a slice that is rendered as an attachment. *)
Lemma attachment_mode (rev : Revision) (m : GitHubMatchResult)
    (s : Common.Slice) (ms1 ms2 : list GitHubMatchResult)
    (rs1 rs2 : list ResolvedGitHubResult) :
  fetchSliceOf rev m = Returned (Some s) ->
  Common.render s = Common.attachmentResult s ->
  resolveGitHubResultsOf rev ms1 = Returned rs1 ->
  resolveGitHubResultsOf rev ms2 = Returned rs2 ->
  resolveGitHubResultsOf rev (ms1 ++ m :: ms2)
  = Returned
      (rs1
       ++ {| content :=
               generateHeader (Common.safeStartLine s) (Common.safeEndLine s)
                 (Common.s_path s) None;
             files :=
               [ {| attachment := Str.join Str.nl (Common.linesRequested s);
                    name := if GitHubUrlType_eqb (Common.s_type s) Gist
                            then Common.s_path s +:+ "." +:+ Common.s_lang s
                            else Common.s_path s |} ] |}
       :: rs2).
Proof.
  intros Hs Hr Hrs1 Hrs2.
  rewrite (resolveGitHubResults_place rev m s ms1 ms2 rs1 rs2 Hs Hrs1 Hrs2), Hr.
  reflexivity.
Qed.

(** C2. A fetched match whose sliced lines contain a triple backtick in
    some line gives, at its place in the results, the header as content
    and one file that holds all sliced lines joined with newlines,
    whatever the size of the slice. *)
Theorem code_fence_gives_attachment (rev : Revision) (m : GitHubMatchResult)
    (s : Common.Slice) (ms1 ms2 : list GitHubMatchResult)
    (rs1 rs2 : list ResolvedGitHubResult) :
  fetchSliceOf rev m = Returned (Some s) ->
  (exists line before rest,
     line ∈ Common.linesRequested s /\ line = before +:+ "```" +:+ rest) ->
  resolveGitHubResultsOf rev ms1 = Returned rs1 ->
  resolveGitHubResultsOf rev ms2 = Returned rs2 ->
  resolveGitHubResultsOf rev (ms1 ++ m :: ms2)
  = Returned
      (rs1
       ++ {| content :=
               generateHeader (Common.safeStartLine s) (Common.safeEndLine s)
                 (Common.s_path s) None;
             files :=
               [ {| attachment := Str.join Str.nl (Common.linesRequested s);
                    name := if GitHubUrlType_eqb (Common.s_type s) Gist
                            then Common.s_path s +:+ "." +:+ Common.s_lang s
                            else Common.s_path s |} ] |}
       :: rs2).
Proof.
  intros Hs Hfence. apply attachment_mode; [done|].
  apply hasCodeBlock_spec in Hfence.
  unfold Common.render. by rewrite Hfence.
Qed.

(** C6, amended. A fetched match without a triple backtick whose
    assembled inline content has 2000 characters or more gives, at its
    place in the results, one file with all sliced lines, and as
    content the header generated for the clamped range: its end line is
    the requested clamped end line [safeEndLine], not the number of
    lines that survived the truncation. *)
Theorem oversized_render_gives_attachment (rev : Revision)
    (m : GitHubMatchResult) (s : Common.Slice)
    (ms1 ms2 : list GitHubMatchResult) (rs1 rs2 : list ResolvedGitHubResult) :
  fetchSliceOf rev m = Returned (Some s) ->
  Common.hasCodeBlock s = false ->
  2000 <= Str.len (Common.inlineContent s) ->
  resolveGitHubResultsOf rev ms1 = Returned rs1 ->
  resolveGitHubResultsOf rev ms2 = Returned rs2 ->
  resolveGitHubResultsOf rev (ms1 ++ m :: ms2)
  = Returned
      (rs1
       ++ {| content :=
               generateHeader (Common.safeStartLine s) (Common.safeEndLine s)
                 (Common.s_path s) None;
             files :=
               [ {| attachment := Str.join Str.nl (Common.linesRequested s);
                    name := if GitHubUrlType_eqb (Common.s_type s) Gist
                            then Common.s_path s +:+ "." +:+ Common.s_lang s
                            else Common.s_path s |} ] |}
       :: rs2).
Proof.
  intros Hs Hfence Hlen. apply attachment_mode; [done|].
  unfold Common.render. rewrite Hfence.
  by destruct (Z.leb_spec 2000 (Str.len (Common.inlineContent s))); [|lia].
Qed.

(** C10. Every result has no file or exactly one. The one file holds
    all sliced lines of its match joined with newlines; without a file
    the content ends with a fenced code block, whose body is the
    placeholder when no line survived the truncation. *)
Theorem files_empty_or_single (rev : Revision) (ms : list GitHubMatchResult)
    (rs : list ResolvedGitHubResult) :
  resolveGitHubResultsOf rev ms = Returned rs ->
  Forall
    (fun r =>
       exists m s,
         m ∈ ms /\ fetchSliceOf rev m = Returned (Some s)
         /\ ((exists a,
                files r = [a]
                /\ attachment a = Str.join Str.nl (Common.linesRequested s))
             \/ (files r = []
                 /\ exists hdr body,
                      content r
                      = hdr +:+ Str.nl +:+ "```" +:+ Common.s_lang s +:+ Str.nl
                          +:+ body +:+ Str.nl +:+ "```"
                      /\ (Common.safeLinesRequested s = []
                          -> body = "Couldn't find any lines"))))
    rs.
Proof.
  rewrite resolveGitHubResults_loop. apply loop_Forall.
  intros m r Hin Hr. apply resolveMatch_pushed in Hr as (s & Hs & ->).
  exists m, s. split; [done|]. split; [done|].
  destruct (render_cases s) as [[_ ->] | [(_ & _ & ->) | (_ & _ & ->)]].
  - left. by eexists.
  - left. by eexists.
  - right. split; [done|]. do 2 eexists. split; [reflexivity|].
    by intros ->.
Qed.

End Attachment.

Lemma code_fence_gives_attachment_witness :
  @resolveGitHubResultsOf Model.utils Scenario.net MetadataApi
    ([Scenario.linkMatch] ++ Scenario.gistMatch MetadataApi :: [])
  = Returned
      ([ {| content :=
              "/u/r/blob/main/f.go L5-L10" +:+ Str.nl +:+ "```go" +:+ Str.nl
                +:+ " 5 line 5" +:+ Str.nl +:+ " 6 line 6" +:+ Str.nl
                +:+ " 7 line 7" +:+ Str.nl +:+ " 8 line 8" +:+ Str.nl
                +:+ " 9 line 9" +:+ Str.nl +:+ "10 line 10" +:+ Str.nl +:+ "```";
            files := [] |} ]
       ++ {| content := "/me/0123abcd#file-notes-md L2-L3";
             files :=
               [ {| attachment := "b" +:+ Str.nl +:+ "c```";
                    name := "/me/0123abcd#file-notes-md.md" |} ] |}
       :: []).
Proof.
  apply (@code_fence_gives_attachment Model.utils Scenario.net MetadataApi
           (Scenario.gistMatch MetadataApi) Scenario.gistSlice
           [Scenario.linkMatch] []).
  - vm_compute; reflexivity.
  - exists "c```", "c", EmptyString. split; [|reflexivity].
    apply list_elem_of_In. vm_compute. auto.
  - vm_compute; reflexivity.
  - reflexivity.
Defined.

Lemma oversized_render_gives_attachment_witness :
  @resolveGitHubResultsOf Model.utils Scenario.longNet MetadataApi
    ([] ++ Scenario.longMatch :: [])
  = Returned
      ([] ++ {| content := "/u/r/blob/main/f.txt L1-L600";
                files :=
                  [ {| attachment := Str.join Str.nl (repeat "x" 600);
                       name := "/u/r/blob/main/f.txt" |} ] |}
          :: []).
Proof.
  apply (@oversized_render_gives_attachment Model.utils Scenario.longNet
           MetadataApi Scenario.longMatch Scenario.longSlice [] []).
  - vm_compute; reflexivity.
  - vm_compute; reflexivity.
  - vm_compute. discriminate.
  - reflexivity.
  - reflexivity.
Defined.

(** C6 as stated fails: of the 600 requested lines 373 survive the
    truncation, the assembled content has 2288 characters, and the
    header of the result shows the end line 600. *)
Lemma fallback_header_keeps_requested_end :
  Scenario.matchesOf MetadataApi Scenario.longLink = [Scenario.longMatch]
  /\ @fetchSliceOf Model.utils Scenario.longNet MetadataApi Scenario.longMatch
     = Returned (Some Scenario.longSlice)
  /\ Common.hasCodeBlock Scenario.longSlice = false
  /\ length (@Common.safeLinesRequested Model.utils Scenario.longSlice) = 373%nat
  /\ @Common.renderedEndLine Model.utils Scenario.longSlice = Js.Num 373
  /\ Str.len (@Common.inlineContent Model.utils Scenario.longSlice) = 2288
  /\ (exists a,
        Scenario.resolve Scenario.longNet MetadataApi Scenario.longLink
        = Returned [ {| content := "/u/r/blob/main/f.txt L1-L600"; files := [a] |} ])
  /\ Model.generateHeader (Js.Num 1) (Js.Num 373) "/u/r/blob/main/f.txt" (Some true)
     = "/u/r/blob/main/f.txt L1-L373 (ellipsed)".
Proof.
  repeat split; try (vm_compute; reflexivity).
  eexists. vm_compute. reflexivity.
Qed.

Lemma files_empty_or_single_witness :
  Scenario.resolve Scenario.longNet MetadataApi Scenario.longLink
  = Returned
      [ {| content := "/u/r/blob/main/f.txt L1-L600";
           files :=
             [ {| attachment := Str.join Str.nl (repeat "x" 600);
                  name := "/u/r/blob/main/f.txt" |} ] |} ]
  /\ Forall
       (fun r =>
          exists m s,
            m ∈ Scenario.matchesOf MetadataApi Scenario.longLink
            /\ @fetchSliceOf Model.utils Scenario.longNet MetadataApi m
               = Returned (Some s)
            /\ ((exists a,
                   files r = [a]
                   /\ attachment a = Str.join Str.nl (Common.linesRequested s))
                \/ (files r = []
                    /\ exists hdr body,
                         content r
                         = hdr +:+ Str.nl +:+ "```" +:+ Common.s_lang s +:+ Str.nl
                             +:+ body +:+ Str.nl +:+ "```"
                         /\ (@Common.safeLinesRequested Model.utils s = []
                             -> body = "Couldn't find any lines"))))
       [ {| content := "/u/r/blob/main/f.txt L1-L600";
            files :=
              [ {| attachment := Str.join Str.nl (repeat "x" 600);
                   name := "/u/r/blob/main/f.txt" |} ] |} ].
Proof.
  split; [vm_compute; reflexivity|].
  apply (@files_empty_or_single Model.utils Scenario.longNet MetadataApi
           (Scenario.matchesOf MetadataApi Scenario.longLink)).
  vm_compute; reflexivity.
Defined.

(** ** Clamping of the line range (C4, C5) *)

Lemma min_not_exceeding (v : Js.num) (n : Z) :
  Js.exceeds (Js.min v (Js.Num n)) n = false.
Proof.
  destruct v as [| |z]; simpl; try reflexivity.
  apply Z.ltb_ge. lia.
Qed.

Lemma safeLines_bounded (rev : Revision) (range : LineRange) (n : nat) :
  Js.exceeds (fst (safeLinesOf rev range n)) (Z.of_nat n) = false
  /\ Js.exceeds (snd (safeLinesOf rev range n)) (Z.of_nat n) = false.
Proof. destruct rev; simpl; split; apply min_not_exceeding. Qed.

(** Whether an iteration pushes, skips or throws does not depend on
    the imported helpers, in particular not on the resolved range. *)
Lemma ending_independent (U1 U2 : Utils) (W : World) (rev : Revision)
    (m : GitHubMatchResult) :
  ending (@resolveMatchOf U1 W rev m) = ending (@resolveMatchOf U2 W rev m).
Proof.
  destruct rev; simpl.
  - unfold RawUrl.resolveMatch, RawUrl.fetchSlice, obind.
    repeat case_match; simplify_eq; reflexivity.
  - unfold GistApi.resolveMatch, GistApi.fetchSlice, obind.
    repeat case_match; simplify_eq; reflexivity.
Qed.

(** The file that is fetched, its path and the shape do not depend on
    the imported helpers: with other helpers the iteration reaches the
    slice of the same lines. *)
Lemma fetchSlice_other_helpers (U1 U2 : Utils) (W : World) (rev : Revision)
    (m : GitHubMatchResult) (s : Common.Slice) :
  @fetchSliceOf U1 W rev m = Returned (Some s) ->
  exists s2,
    @fetchSliceOf U2 W rev m = Returned (Some s2)
    /\ Common.parsedLines s2 = Common.parsedLines s.
Proof.
  destruct rev; simpl; intros Hs.
  - unfold RawUrl.fetchSlice, obind in *.
    repeat case_match; simplify_eq; simpl; eauto.
  - unfold GistApi.fetchSlice, obind in *.
    repeat case_match; simplify_eq; simpl; eauto.
Qed.

(** C4. The start and end line that the handler uses for slicing a
    fetched file never exceed its number of lines. For the range 1 to
    [b] on a file of at most [b] lines, so for lines 1 to 1000000 of a
    file of 50 lines, the handler slices exactly the lines of the file.
    And whatever range the qualifier resolves to, the match reaches the
    slice of the same file within these bounds and a result is pushed
    for it: no error, no dropped match. *)
Theorem range_clamped_to_line_count (U1 U2 : Utils) (W : World)
    (rev : Revision) (m : GitHubMatchResult) (s : Common.Slice) :
  @fetchSliceOf U1 W rev m = Returned (Some s) ->
  let n := Z.of_nat (length (Common.parsedLines s)) in
  (Js.exceeds (Common.safeStartLine s) n = false
   /\ Js.exceeds (Common.safeEndLine s) n = false)
  /\ (forall b,
        @resolveLines U1 (opts m)
        = {| startLine := Js.Num 1; endLine := Js.Num b |} ->
        n <= b ->
        Common.safeStartLine s = Js.Num 1
        /\ Common.safeEndLine s = Js.Num n
        /\ Common.linesRequested s = Common.parsedLines s)
  /\ exists s2,
       @fetchSliceOf U2 W rev m = Returned (Some s2)
       /\ Common.parsedLines s2 = Common.parsedLines s
       /\ Js.exceeds (Common.safeStartLine s2) n = false
       /\ Js.exceeds (Common.safeEndLine s2) n = false
       /\ @resolveMatchOf U2 W rev m = Returned (Some (@Common.render U2 s2)).
Proof.
  intros Hs n.
  destruct (fetchSlice_clamped rev m s Hs) as (_ & [contents Hlines] & Hsafe).
  pose proof (safeLines_bounded rev (@resolveLines U1 (opts m))
                (length (Common.parsedLines s))) as Hb.
  rewrite <- Hsafe in Hb. split; [exact Hb|]. split.
  - intros b Hrange Hnb. rewrite Hrange in Hsafe.
    pose proof (split_length (ascii_of_nat 10) contents) as Hn.
    rewrite <- Hlines in Hn.
    assert (Js.truthy (Js.Num b) = true) as Htb.
    { simpl. destruct (Z.eqb_spec b 0); [lia | done]. }
    assert (Common.safeStartLine s = Js.Num 1
            /\ Common.safeEndLine s = Js.Num n) as [Hstart Hend].
    { destruct rev; simpl in Hsafe;
        unfold RawUrl.safeLines, GistApi.safeLines, Js.or in Hsafe;
        cbn [startLine endLine] in Hsafe; rewrite Htb in Hsafe;
        simpl in Hsafe; injection Hsafe as -> ->;
        split; f_equal; unfold n; lia. }
    split; [done|]. split; [done|].
    unfold Common.linesRequested. rewrite Hstart, Hend.
    change (Js.sub (Js.Num 1) (Js.Num 1)) with (Js.Num 0).
    apply slice_whole.
  - destruct (fetchSlice_other_helpers U1 U2 W rev m s Hs) as (s2 & Hs2 & Hsame).
    exists s2. split; [done|]. split; [done|].
    destruct (fetchSlice_clamped rev m s2 Hs2) as (_ & _ & Hsafe2).
    pose proof (safeLines_bounded rev (@resolveLines U2 (opts m))
                  (length (Common.parsedLines s2))) as Hb2.
    rewrite <- Hsafe2, Hsame in Hb2. destruct Hb2 as [Hb2 Hb2'].
    split; [done|]. split; [done|].
    by rewrite resolveMatch_fetchSlice, Hs2.
Qed.

Lemma range_clamped_to_line_count_witness :
  let range := {| startLine := Js.Num 1; endLine := Js.Num 1000000 |} in
  let s := Cases.linkSliceWith MetadataApi range in
  (Js.exceeds (Common.safeStartLine s) 50 = false
   /\ Js.exceeds (Common.safeEndLine s) 50 = false)
  /\ (Common.safeStartLine s = Js.Num 1
      /\ Common.safeEndLine s = Js.Num 50
      /\ Common.linesRequested s = Common.parsedLines s)
  /\ exists s2,
       @fetchSliceOf Model.utils Scenario.net MetadataApi Scenario.linkMatch
       = Returned (Some s2)
       /\ Common.parsedLines s2 = Common.parsedLines s
       /\ Js.exceeds (Common.safeStartLine s2) 50 = false
       /\ Js.exceeds (Common.safeEndLine s2) 50 = false
       /\ @resolveMatchOf Model.utils Scenario.net MetadataApi Scenario.linkMatch
          = Returned (Some (@Common.render Model.utils s2)).
Proof.
  intros range s.
  destruct (range_clamped_to_line_count (Scenario.utilsWithRange range)
              Model.utils Scenario.net MetadataApi Scenario.linkMatch s)
    as (Hbounds & Hwhole & Hother).
  - vm_compute; reflexivity.
  - split; [exact Hbounds|]. split; [|exact Hother].
    apply (Hwhole 1000000); [reflexivity | vm_compute; discriminate].
Defined.

(** C5, amended. With no end line (absent or zero) and a start line
    that is a number other than zero, the effective end line is the
    effective start line, the start line clamped to the line count; it
    is the start line itself, and the slice is that one line, when the
    start line is a line of the file. With no start line either (absent
    or zero), the revision with the metadata API slices the whole file,
    lines 1 to the line count. *)
Theorem absent_end_line (rev : Revision) (range : LineRange) (contents : string) :
  Js.truthy (endLine range) = false ->
  let lines := Str.split (ascii_of_nat 10) contents in
  let n := Js.Num (Z.of_nat (length lines)) in
  (Js.truthy (startLine range) = true ->
   safeLinesOf rev range (length lines)
   = (Js.min (startLine range) n, Js.min (startLine range) n))
  /\ (forall z x,
        startLine range = Js.Num z -> line_at lines z = Some x ->
        safeLinesOf rev range (length lines) = (Js.Num z, Js.Num z)
        /\ Js.slice lines (Js.sub (Js.Num z) (Js.Num 1)) (Js.Num z) = [x])
  /\ (Js.truthy (startLine range) = false ->
      safeLinesOf MetadataApi range (length lines) = (Js.Num 1, n)
      /\ Js.slice lines (Js.sub (Js.Num 1) (Js.Num 1)) n = lines).
Proof.
  intros Hend lines n. destruct range as [start end_]; simpl in *.
  split; [|split].
  - intros Hstart. destruct rev; simpl; unfold RawUrl.safeLines, GistApi.safeLines;
      simpl; rewrite Hend; [reflexivity|].
    unfold Js.or. by rewrite Hstart.
  - intros z x -> Hx. unfold line_at in Hx.
    destruct (Z.ltb_spec 0 z) as [Hz|]; [|discriminate].
    pose proof (lookup_lt_Some _ _ _ Hx) as Hlt.
    assert (Js.truthy (Js.Num z) = true) as Htruthy.
    { simpl. destruct (Z.eqb_spec z 0); [lia | reflexivity]. }
    split; [|by apply slice_single].
    destruct rev; simpl; unfold RawUrl.safeLines, GistApi.safeLines, Js.or;
      simpl startLine; simpl endLine; rewrite Hend, ?Htruthy; simpl;
      rewrite Z.min_l by lia; reflexivity.
  - intros Hstart. unfold GistApi.safeLines, Js.or; simpl.
    rewrite Hend, Hstart. simpl.
    pose proof (split_length (ascii_of_nat 10) contents) as Hn.
    fold lines in Hn. rewrite Z.min_l, Z.min_id by lia.
    split; [reflexivity | apply slice_whole].
Qed.

Lemma absent_end_line_witness :
  let range := {| startLine := Js.Num 7; endLine := Js.Undefined |} in
  let lines := Str.split (ascii_of_nat 10) (Scenario.numbered 50) in
  let n := Js.Num (Z.of_nat (length lines)) in
  (Js.truthy (startLine range) = true ->
   safeLinesOf MetadataApi range (length lines)
   = (Js.min (startLine range) n, Js.min (startLine range) n))
  /\ (forall z x,
        startLine range = Js.Num z -> line_at lines z = Some x ->
        safeLinesOf MetadataApi range (length lines) = (Js.Num z, Js.Num z)
        /\ Js.slice lines (Js.sub (Js.Num z) (Js.Num 1)) (Js.Num z) = [x])
  /\ (Js.truthy (startLine range) = false ->
      safeLinesOf MetadataApi range (length lines) = (Js.Num 1, n)
      /\ Js.slice lines (Js.sub (Js.Num 1) (Js.Num 1)) n = lines).
Proof.
  apply (absent_end_line MetadataApi
           {| startLine := Js.Num 7; endLine := Js.Undefined |}
           (Scenario.numbered 50)).
  reflexivity.
Defined.

(** C5 as stated fails: with start line 100, no end line and 50 lines
    the effective end line is 50, not the start line; and with start
    line 0 the revision with raw Gist URLs slices no line instead of
    the whole file. *)
Lemma absent_end_line_is_clamped :
  safeLinesOf MetadataApi {| startLine := Js.Num 100; endLine := Js.Undefined |} 50
  = (Js.Num 50, Js.Num 50)
  /\ Js.Num 50 <> Js.Num 100
  /\ safeLinesOf PerFileRawUrl {| startLine := Js.Num 0; endLine := Js.Undefined |} 50
     = (Js.Num 0, Js.Num 0)
  /\ Js.slice (repeat "x" 50) (Js.sub (Js.Num 0) (Js.Num 1)) (Js.Num 0) = [].
Proof. repeat split; try reflexivity. discriminate. Qed.

(** ** Gist links without all their parts (C8) *)

Section Gists.
Context {P : Patterns} {U : Utils} {W : World}.

(** A match whose converter answers [null] leaves no entry. *)
Lemma null_conversion_leaves_no_entry (rev : Revision) (m : GitHubMatchResult)
    (ms1 ms2 : list GitHubMatchResult) :
  converter m (url m) = Returned None ->
  resolveGitHubResultsOf rev (ms1 ++ m :: ms2)
  = resolveGitHubResultsOf rev (ms1 ++ ms2).
Proof.
  intros Hnull. rewrite !resolveGitHubResults_loop. apply loop_skip.
  destruct rev; simpl.
  - unfold RawUrl.resolveMatch, RawUrl.fetchSlice. by rewrite Hnull.
  - unfold GistApi.resolveMatch, GistApi.fetchSlice. by rewrite Hnull.
Qed.

(** C8, amended. For a Gist link whose id or file qualifier is missing,
    and in the revision with raw Gist URLs also for one whose user is
    missing, the Gist converter answers [null], and the results are
    those of the other matches. *)
Theorem incomplete_gist_is_dropped (rev : Revision) (u : string)
    (groups : RegExpExecArray) (m : GitHubMatchResult)
    (ms1 ms2 : list GitHubMatchResult) :
  GistGitHubUrlRegex (Str.remove_markers u) = Some groups ->
  Str.falsy (g_id groups) = true
  \/ Str.falsy (g_opts groups) = true
  \/ (rev = PerFileRawUrl /\ Str.falsy (g_user groups) = true) ->
  converter m = gistConverterOf rev ->
  url m = u ->
  gistConverterOf rev u = Returned None
  /\ resolveGitHubResultsOf rev (ms1 ++ m :: ms2)
     = resolveGitHubResultsOf rev (ms1 ++ ms2).
Proof.
  intros Hexec Hmissing Hconv Hurl.
  assert (gistConverterOf rev u = Returned None) as Hnull.
  { destruct rev; simpl; unfold RawUrl.gistConverter, GistApi.gistConverter;
      rewrite Hexec.
    - destruct Hmissing as [-> | [-> | [_ ->]]]; simpl;
        rewrite ?orb_true_r; reflexivity.
    - destruct Hmissing as [-> | [-> | [[=] _]]]; simpl;
        rewrite ?orb_true_r; reflexivity. }
  split; [exact Hnull|].
  apply null_conversion_leaves_no_entry. by rewrite Hconv, Hurl.
Qed.

End Gists.

Lemma incomplete_gist_is_dropped_witness :
  @gistConverterOf Model.patterns PerFileRawUrl Scenario.anonymousGist
  = Returned None
  /\ @resolveGitHubResultsOf Model.utils Scenario.net PerFileRawUrl
       ([Scenario.linkMatch] ++ Scenario.anonymousMatch PerFileRawUrl :: [])
     = @resolveGitHubResultsOf Model.utils Scenario.net PerFileRawUrl
         ([Scenario.linkMatch] ++ []).
Proof.
  apply (@incomplete_gist_is_dropped Model.patterns Model.utils Scenario.net
           PerFileRawUrl Scenario.anonymousGist
           {| whole := Scenario.anonymousGist; g_user := None;
              g_id := Some "0123abcd"; g_opts := Some "notes-md" |}).
  - vm_compute; reflexivity.
  - right. right. split; reflexivity.
  - reflexivity.
  - reflexivity.
Defined.

(** C8 as stated fails: in the revision with the metadata API a Gist
    link without a user part is converted and resolved. *)
Lemma gist_without_user_is_resolved :
  Scenario.matchesOf MetadataApi Scenario.anonymousGist
  = [Scenario.anonymousMatch MetadataApi]
  /\ Model.GistGitHubUrlRegex (Str.remove_markers Scenario.anonymousGist)
     = Some {| whole := Scenario.anonymousGist; g_user := None;
               g_id := Some "0123abcd"; g_opts := Some "notes-md" |}
  /\ @gistConverterOf Model.patterns MetadataApi Scenario.anonymousGist
     = Returned (Some "https://api.github.com/gists/0123abcd")
  /\ Scenario.resolve Scenario.net MetadataApi Scenario.anonymousGist
     = Returned
         [ {| content :=
                "/0123abcd#file-notes-md L1-L1" +:+ Str.nl +:+ "```md" +:+ Str.nl
                  +:+ "1 a" +:+ Str.nl +:+ "```";
              files := [] |} ].
Proof. repeat split; vm_compute; reflexivity. Qed.

(** ** Repeated links (C3) *)

Lemma fresh_array_not_in_set (x : RegExpMatchArray) (k : nat)
    (s : list RegExpMatchArray) :
  ref x = k ->
  Forall (fun a => (ref a < k)%nat) s ->
  existsb (Common.SameValueZero x) s = false.
Proof.
  intros Hx. induction 1 as [|a s Ha _ IH]; [reflexivity|].
  simpl. rewrite IH, orb_false_r. unfold Common.SameValueZero.
  apply Nat.eqb_neq. lia.
Qed.

Lemma Set_from_fresh (g : nat -> string -> RegExpMatchArray) (k : nat)
    (l : list string) (acc : list RegExpMatchArray) :
  (forall i u, ref (g i u) = (k + i)%nat) ->
  Forall (fun a => (ref a < k)%nat) acc ->
  fold_left Common.Set_add (imap g l) acc = acc ++ imap g l.
Proof.
  revert g k acc; induction l as [|u l IH]; intros g k acc Hg Hacc; simpl.
  - by rewrite app_nil_r.
  - unfold Common.Set_add at 2.
    rewrite (fresh_array_not_in_set (g 0%nat u) k acc) by (rewrite ?Hg; auto with lia).
    rewrite (IH (g ∘ S) (S k)).
    + by rewrite <- app_assoc.
    + intros i v. simpl. rewrite Hg. lia.
    + apply Forall_app. split.
      * eapply Forall_impl; [exact Hacc | simpl; lia].
      * constructor; [rewrite Hg; lia | constructor].
Qed.

(** The set built from the arrays of [matchAll] holds every one of
    them: no two of these objects are the same. *)
Lemma Set_from_matchAll (re : string -> list string) (t : string) :
  Common.Set_from (Common.matchAll re t) = Common.matchAll re t.
Proof.
  unfold Common.Set_from, Common.matchAll.
  by rewrite (Set_from_fresh _ 0%nat _ []).
Qed.

(** Every occurrence of a URL in the text is classified on its own. *)
Lemma matchGitHubUrls_every_occurrence `{Patterns} (validators : list Validator)
    (t : string) :
  Common.matchGitHubUrls validators t
  = Common.map_filter (Common.classify validators)
      (imap (fun i u => {| ref := i; item0 := u |}) (URL_REGEX t)).
Proof.
  unfold Common.matchGitHubUrls. rewrite Set_from_matchAll.
  unfold Common.matchAll. by destruct (imap _ _).
Qed.

(** C3, the code at a text that holds the same link twice: the link is
    matched twice, in both revisions. *)
Theorem repeated_link_is_matched_twice :
  map url (Scenario.matchesOf PerFileRawUrl
             (Scenario.link +:+ " " +:+ Scenario.link))
  = [Scenario.link; Scenario.link]
  /\ map url (Scenario.matchesOf MetadataApi
                (Scenario.link +:+ " " +:+ Scenario.link))
     = [Scenario.link; Scenario.link]
  /\ @matchGitHubUrlsOf Model.patterns MetadataApi
       (Scenario.link +:+ " " +:+ Scenario.link)
     = Returned [Scenario.linkMatch; Scenario.linkMatch].
Proof. repeat split; vm_compute; reflexivity. Qed.

(** ** The converter of direct links (C7) *)

(** The example of the specification. *)
Example normalConverter_example :
  Common.normalConverter Scenario.link
  = Returned (Some "https://raw.githubusercontent.com/u/r/main/f.go#L5-L10")
  /\ map opts (Scenario.matchesOf MetadataApi Scenario.link) = [Some "L5-L10"].
Proof. split; vm_compute; reflexivity. Qed.

(** C7, the code at a link whose owner name starts with [blob]: the
    converter removes [/blob] from the owner name, so that the host is
    not the raw-content host and the [/blob/] segment stays. *)
Theorem owner_named_blob_breaks_conversion :
  map (fun m => (type m, url m))
    (Scenario.matchesOf MetadataApi Scenario.blobfishLink)
  = [(Normal, Scenario.blobfishLink)]
  /\ Common.normalConverter Scenario.blobfishLink
     = Returned
         (Some "https://raw.githubusercontent.comfish/r/blob/main/f.go#L5-L10").
Proof. split; vm_compute; reflexivity. Qed.


(** * Further properties *)

(** ** Matching links *)

Section Matching.
Context {P : Patterns}.

Lemma classify_shapeOf (rev : Revision) (a : RegExpMatchArray) :
  Common.classify
    (match rev with
     | PerFileRawUrl => RawUrl.validators
     | MetadataApi => GistApi.validators
     end) a
  = Returned (shapeOf rev (item0 a)).
Proof.
  unfold Common.classify, shapeOf.
  destruct rev; simpl;
    destruct (NormalGitHubUrlRegex (item0 a)) as [r|] eqn:Hn; simpl;
    rewrite ?Hn; try (by destruct (whole r));
    destruct (GistGitHubUrlRegex (item0 a)) as [g|] eqn:Hg; simpl;
    rewrite ?Hg; try done; by destruct (whole g).
Qed.

Lemma map_filter_returned {A B} (f : A -> option B) (l : list A) :
  Common.map_filter (fun a => Returned (f a)) l = Returned (omap f l).
Proof.
  induction l as [|a l IH]; [reflexivity|].
  cbn [Common.map_filter]. rewrite IH. csimpl. by destruct (f a).
Qed.

Lemma map_filter_ext {A B} (f g : A -> outcome (option B)) (l : list A) :
  (forall a, f a = g a) -> Common.map_filter f l = Common.map_filter g l.
Proof.
  intros Hfg. induction l as [|a l IH]; [reflexivity|].
  cbn [Common.map_filter]. by rewrite Hfg, IH.
Qed.

Lemma omap_imap_item0 {B} (f : string -> option B)
    (g : nat -> string -> RegExpMatchArray) (l : list string) :
  (forall i u, item0 (g i u) = u) ->
  omap (fun a => f (item0 a)) (imap g l) = omap f l.
Proof.
  revert g; induction l as [|u l IH]; intros g Hg; [reflexivity|].
  csimpl. rewrite Hg, (IH (g ∘ S)) by (intros i v; apply Hg). reflexivity.
Qed.

Lemma matchGitHubUrls_shapes (rev : Revision) (t : string) :
  matchGitHubUrlsOf rev t = Returned (omap (shapeOf rev) (URL_REGEX t)).
Proof.
  assert (matchGitHubUrlsOf rev t
          = Common.matchGitHubUrls
              (match rev with
               | PerFileRawUrl => RawUrl.validators
               | MetadataApi => GistApi.validators
               end) t) as -> by (by destruct rev).
  rewrite matchGitHubUrls_every_occurrence.
  rewrite (map_filter_ext _ (fun a => Returned (shapeOf rev (item0 a))))
    by apply classify_shapeOf.
  rewrite (map_filter_returned (fun a => shapeOf rev (item0 a))).
  f_equal. by apply omap_imap_item0.
Qed.

(** X1. [matchGitHubUrls] never throws. It returns, in the order of the
    text, one match for every occurrence of a URL that has one of the
    link shapes; the direct-link shape is tried first, and a URL of
    neither shape gives nothing. *)
Theorem matchGitHubUrls_by_shape (rev : Revision) (t : string) :
  matchGitHubUrlsOf rev t = Returned (omap (shapeOf rev) (URL_REGEX t)).
Proof.
  destruct rev; simpl;
    unfold RawUrl.matchGitHubUrls, GistApi.matchGitHubUrls,
      Common.matchGitHubUrls;
    rewrite Set_from_matchAll; unfold Common.matchAll.
  - rewrite <- (omap_imap_item0 (shapeOf PerFileRawUrl)
                  (fun i u => {| ref := i; item0 := u |}) (URL_REGEX t))
      by reflexivity.
    rewrite <- map_filter_returned.
    destruct (imap _ (URL_REGEX t)) eqn:Harrays; [reflexivity|].
    apply map_filter_ext. intros a. apply (classify_shapeOf PerFileRawUrl).
  - rewrite <- (omap_imap_item0 (shapeOf MetadataApi)
                  (fun i u => {| ref := i; item0 := u |}) (URL_REGEX t))
      by reflexivity.
    rewrite <- map_filter_returned.
    destruct (imap _ (URL_REGEX t)) eqn:Harrays; [reflexivity|].
    apply map_filter_ext. intros a. apply (classify_shapeOf MetadataApi).
Qed.

Lemma shapeOf_well_formed (rev : Revision) (u : string) (m : GitHubMatchResult) :
  shapeOf rev u = Some m ->
  url m <> EmptyString
  /\ ((type m = Normal /\ converter m = Common.normalConverter
       /\ exists r, NormalGitHubUrlRegex u = Some r /\ url m = whole r
                    /\ opts m = g_opts r)
      \/ (type m = Gist /\ converter m = gistConverterOf rev
          /\ NormalGitHubUrlRegex u = None
          /\ exists r, GistGitHubUrlRegex u = Some r /\ url m = whole r
                       /\ opts m = g_opts r)).
Proof.
  unfold shapeOf.
  destruct (NormalGitHubUrlRegex u) as [r|].
  - destruct (whole r) eqn:Hw; [done|]. intros [= <-]. simpl.
    split; [done|]. left. eauto 10.
  - destruct (GistGitHubUrlRegex u) as [g|]; [|done].
    destruct (whole g) eqn:Hw; [done|]. intros [= <-]. simpl.
    split; [done|]. right. eauto 10.
Qed.

(** X2. Every match that [matchGitHubUrls] returns comes from a URL of the
    text: its [url] is the nonempty text matched by the pattern of its
    shape, its [opts] the group of that name, and its converter the
    one of its shape; the shape is never [Diff], and a match of the Gist
    shape comes from a URL that the direct-link pattern does not match. *)
Theorem matches_are_well_formed (rev : Revision) (t : string)
    (ms : list GitHubMatchResult) :
  matchGitHubUrlsOf rev t = Returned ms ->
  Forall
    (fun m =>
       exists u,
         u ∈ URL_REGEX t /\ url m <> EmptyString
         /\ ((type m = Normal /\ converter m = Common.normalConverter
              /\ exists r, NormalGitHubUrlRegex u = Some r /\ url m = whole r
                           /\ opts m = g_opts r)
             \/ (type m = Gist /\ converter m = gistConverterOf rev
                 /\ NormalGitHubUrlRegex u = None
                 /\ exists r, GistGitHubUrlRegex u = Some r /\ url m = whole r
                              /\ opts m = g_opts r)))
    ms.
Proof.
  rewrite matchGitHubUrls_shapes. intros [= <-].
  apply Forall_forall. intros m Hm.
  apply list_elem_of_omap in Hm as (u & Hu & Hshape).
  exists u. split; [done|]. by apply shapeOf_well_formed.
Qed.

End Matching.

Lemma matches_are_well_formed_witness :
  Forall
    (fun m =>
       exists u,
         u ∈ Model.URL_REGEX Cases.twoShapes /\ url m <> EmptyString
         /\ ((type m = Normal /\ converter m = Common.normalConverter
              /\ exists r, Model.NormalGitHubUrlRegex u = Some r
                           /\ url m = whole r /\ opts m = g_opts r)
             \/ (type m = Gist
                 /\ converter m = @gistConverterOf Model.patterns MetadataApi
                 /\ Model.NormalGitHubUrlRegex u = None
                 /\ exists r, Model.GistGitHubUrlRegex u = Some r
                              /\ url m = whole r /\ opts m = g_opts r)))
    [Scenario.linkMatch; Scenario.gistMatch MetadataApi].
Proof.
  apply (@matches_are_well_formed Model.patterns MetadataApi Cases.twoShapes).
  vm_compute; reflexivity.
Defined.

(** ** The reply of the command *)

Lemma slice0_length (n : nat) (s : string) :
  (String.length (Command.slice0 n s) <= n)%nat.
Proof.
  revert s; induction n as [|n IH]; intros s; [simpl; lia|].
  destruct s as [|c s]; simpl; [lia|]. specialize (IH s). lia.
Qed.

Lemma slice0_short (n : nat) (s : string) :
  (String.length s <= n)%nat -> Command.slice0 n s = s.
Proof.
  revert s; induction n as [|n IH]; intros [|c s]; simpl; try done; try lia.
  intros Hs. rewrite IH by lia. reflexivity.
Qed.

Lemma fold_collect (rs : list ResolvedGitHubResult)
    (acc : list string * list AttachmentPayload) :
  fold_left Command.collect rs acc
  = (fst acc ++ map content rs, snd acc ++ concat (map files rs)).
Proof.
  revert acc; induction rs as [|r rs IH]; intros [a b]; simpl.
  - by rewrite !app_nil_r.
  - rewrite IH. simpl. by rewrite <- !app_assoc.
Qed.

Lemma omap_nothing {A B} (f : A -> option B) (l : list A) :
  Forall (fun a => f a = None) l -> omap f l = [].
Proof.
  induction 1 as [|a l Ha _ IH]; [reflexivity|].
  csimpl. by rewrite Ha, IH.
Qed.

Section Reply.
Context {P : Patterns} {U : Utils} {W : World}.

Lemma render_files (s : Common.Slice) : (length (files (Common.render s)) <= 1)%nat.
Proof.
  destruct (render_cases s) as [[_ ->] | [(_ & _ & ->) | (_ & _ & ->)]];
    simpl; lia.
Qed.

Lemma results_files (rev : Revision) (ms : list GitHubMatchResult)
    (rs : list ResolvedGitHubResult) :
  resolveGitHubResultsOf rev ms = Returned rs ->
  (length (concat (map files rs)) <= length rs)%nat.
Proof.
  intros Hrs.
  assert (Forall (fun r => (length (files r) <= 1)%nat) rs) as Hall.
  { rewrite resolveGitHubResults_loop in Hrs. eapply loop_Forall; [|exact Hrs].
    intros m r _ Hr. apply resolveMatch_pushed in Hr as (s & _ & ->).
    apply render_files. }
  clear Hrs. induction Hall as [|r rs Hr _ IH]; simpl; [lia|].
  rewrite length_app. lia.
Qed.

Lemma results_length (rev : Revision) (ms : list GitHubMatchResult)
    (rs : list ResolvedGitHubResult) :
  resolveGitHubResultsOf rev ms = Returned rs -> (length rs <= length ms)%nat.
Proof.
  rewrite resolveGitHubResults_loop, loop_characterised.
  destruct (forallb _ ms); [|done]. intros [= <-]. apply omap_length_le.
Qed.

(** X3. Every reply of the command is ephemeral and has a content of at
    most 2000 characters. *)
Theorem reply_within_limit (rev : Revision) (messageContent : string)
    (reply : InteractionReplyOptions) :
  Command.messageContext rev messageContent = Returned reply ->
  ephemeral reply = true /\ Str.len (reply_content reply) <= 2000.
Proof.
  unfold Command.messageContext, obind. set (cut := Command.slice0 2000).
  destruct (matchGitHubUrlsOf rev messageContent) as [[|m ms]|]; [| |done].
  - intros [= <-]. split; [reflexivity | by vm_compute].
  - destruct (resolveGitHubResultsOf rev (m :: ms)) as [[|r rs]|]; [| |done].
    + intros [= <-]. split; [reflexivity | by vm_compute].
    + rewrite fold_collect. cbv beta iota zeta.
      intros [= <-]. split; [reflexivity|].
      cbn [reply_content]. unfold Str.len, cut.
      match goal with
      | |- context [Command.slice0 2000 ?x] => pose proof (slice0_length 2000 x)
      end.
      lia.
Qed.

(** X4. When some match is resolved, the reply has as content the first
    2000 characters of the contents of the results joined with
    newlines, and as files the files of the results in their order, at
    most one for each match. *)
Theorem reply_of_results (rev : Revision) (messageContent : string)
    (ms : list GitHubMatchResult) (rs : list ResolvedGitHubResult) :
  matchGitHubUrlsOf rev messageContent = Returned ms ->
  resolveGitHubResultsOf rev ms = Returned rs ->
  rs <> [] ->
  Command.messageContext rev messageContent
  = Returned {| ephemeral := true;
                reply_content :=
                  Command.slice0 2000 (Str.join Str.nl (map content rs));
                reply_files := Some (concat (map files rs)) |}
  /\ (length (concat (map files rs)) <= length ms)%nat.
Proof.
  intros Hms Hrs Hne. split.
  - unfold Command.messageContext. rewrite Hms. simpl.
    destruct ms as [|m ms].
    + destruct rev; simpl in Hrs; by injection Hrs as <-.
    + rewrite Hrs. simpl. destruct rs as [|r rs]; [done|].
      by rewrite fold_collect.
  - pose proof (results_files rev ms rs Hrs).
    pose proof (results_length rev ms rs Hrs). lia.
Qed.

(** X5. A message without a link of either shape is answered with the
    fixed text and no file, whatever the network is. *)
Theorem reply_without_links (rev : Revision) (messageContent : string) :
  Forall (fun u => NormalGitHubUrlRegex u = None /\ GistGitHubUrlRegex u = None)
    (URL_REGEX messageContent) ->
  Command.messageContext rev messageContent = Returned Command.nothingFound.
Proof.
  intros Hnone. unfold Command.messageContext.
  rewrite matchGitHubUrls_shapes.
  rewrite omap_nothing; [done|].
  eapply Forall_impl; [exact Hnone|]. intros u [Hn Hg]. unfold shapeOf.
  by rewrite Hn, Hg.
Qed.

(** X6. When every match is skipped, the reply is the fixed text and has
    no file. *)
Theorem reply_when_all_skipped (rev : Revision) (messageContent : string)
    (ms : list GitHubMatchResult) :
  matchGitHubUrlsOf rev messageContent = Returned ms ->
  Forall (fun m => resolveMatchOf rev m = Returned None) ms ->
  Command.messageContext rev messageContent = Returned Command.nothingFound.
Proof.
  intros Hms Hall. unfold Command.messageContext. rewrite Hms. simpl.
  rewrite resolveGitHubResults_loop, loop_characterised.
  destruct ms as [|m ms]; [done|].
  assert (forallb (fun m => returns (resolveMatchOf rev m)) (m :: ms) = true) as ->.
  { apply forallb_forall. intros x Hx. rewrite Forall_forall in Hall.
    apply list_elem_of_In in Hx. by rewrite (Hall x Hx). }
  rewrite omap_nothing; [done|].
  eapply Forall_impl; [exact Hall|]. intros x Hx. unfold pushed. by rewrite Hx.
Qed.

(** X7. When the iteration of some match throws, the command throws and
    sends no reply, whatever the other matches give. *)
Theorem command_throws_with_iteration (rev : Revision) (messageContent : string)
    (ms : list GitHubMatchResult) :
  matchGitHubUrlsOf rev messageContent = Returned ms ->
  Exists (fun m => resolveMatchOf rev m = Thrown) ms ->
  Command.messageContext rev messageContent = Thrown.
Proof.
  intros Hms Hex. unfold Command.messageContext. rewrite Hms. simpl.
  rewrite resolveGitHubResults_loop, loop_characterised.
  destruct ms as [|m ms]; [by apply Exists_nil in Hex|].
  assert (forallb (fun m => returns (resolveMatchOf rev m)) (m :: ms) = false) as ->;
    [|done].
  apply not_true_is_false. intros Hall.
  rewrite forallb_forall in Hall. apply Exists_exists in Hex as (x & Hx & Hthrown).
  apply list_elem_of_In in Hx. specialize (Hall x Hx). by rewrite Hthrown in Hall.
Qed.

End Reply.

Lemma reply_within_limit_witness :
  Cases.reply Scenario.deepNet MetadataApi Scenario.deepLink
  = Returned (Cases.replyOf Scenario.deepNet MetadataApi Scenario.deepLink)
  /\ (ephemeral (Cases.replyOf Scenario.deepNet MetadataApi Scenario.deepLink)
      = true
      /\ Str.len (reply_content
                    (Cases.replyOf Scenario.deepNet MetadataApi Scenario.deepLink))
         <= 2000).
Proof.
  split; [vm_compute; reflexivity|].
  apply (@reply_within_limit Model.patterns Model.utils Scenario.deepNet
           MetadataApi Scenario.deepLink).
  vm_compute; reflexivity.
Defined.

(** The content of that reply is cut: the one result has 2025
    characters, the reply 2000. *)
Example reply_is_cut :
  map (fun r => Str.len (content r))
    (Cases.resultsOf Scenario.deepNet MetadataApi Scenario.deepLink)
  = [2025]
  /\ Str.len (reply_content
                (Cases.replyOf Scenario.deepNet MetadataApi Scenario.deepLink))
     = 2000.
Proof. split; vm_compute; reflexivity. Qed.

Lemma reply_of_results_witness :
  Cases.reply Scenario.net MetadataApi Cases.twoShapes
  = Returned
      {| ephemeral := true;
         reply_content :=
           Command.slice0 2000
             (Str.join Str.nl
                (map content
                   (Cases.resultsOf Scenario.net MetadataApi Cases.twoShapes)));
         reply_files :=
           Some (concat
                   (map files
                      (Cases.resultsOf Scenario.net MetadataApi Cases.twoShapes))) |}
  /\ (length
        (concat
           (map files (Cases.resultsOf Scenario.net MetadataApi Cases.twoShapes)))
      <= length (Scenario.matchesOf MetadataApi Cases.twoShapes))%nat.
Proof.
  apply (@reply_of_results Model.patterns Model.utils Scenario.net MetadataApi
           Cases.twoShapes).
  - vm_compute; reflexivity.
  - vm_compute; reflexivity.
  - vm_compute; discriminate.
Defined.

Lemma reply_without_links_witness :
  Cases.reply Scenario.flakyNet MetadataApi Cases.noLink
  = Returned (@Command.nothingFound).
Proof.
  apply (@reply_without_links Model.patterns Model.utils Scenario.flakyNet
           MetadataApi Cases.noLink).
  vm_compute. repeat constructor.
Defined.

Lemma reply_when_all_skipped_witness :
  Cases.reply Scenario.net MetadataApi Cases.missingLink
  = Returned (@Command.nothingFound).
Proof.
  apply (@reply_when_all_skipped Model.patterns Model.utils Scenario.net
           MetadataApi Cases.missingLink [Cases.missingMatch]).
  - vm_compute; reflexivity.
  - constructor; [vm_compute; reflexivity | constructor].
Defined.

Lemma command_throws_with_iteration_witness :
  Cases.reply Scenario.flakyNet MetadataApi Scenario.twoLinks = Thrown.
Proof.
  apply (@command_throws_with_iteration Model.patterns Model.utils
           Scenario.flakyNet MetadataApi Scenario.twoLinks
           (Scenario.matchesOf MetadataApi Scenario.twoLinks)).
  - vm_compute; reflexivity.
  - apply Exists_exists. exists Cases.rejectedMatch. split.
    + apply list_elem_of_In. vm_compute. auto.
    + vm_compute; reflexivity.
Defined.

(** ** Matches that are skipped *)

Section Skips.
Context {U : Utils} {W : World}.

(** X8. A match whose file is answered with a status other than 200 is
    skipped, whatever the body is: the results are those of the other
    matches. *)
Theorem other_status_is_skipped (rev : Revision) (m : GitHubMatchResult)
    (rawUrl : string) (res : Response) (ms1 ms2 : list GitHubMatchResult) :
  converter m (url m) = Returned (Some rawUrl) ->
  fetch rawUrl = Returned res ->
  status res <> 200 ->
  resolveMatchOf rev m = Returned None
  /\ resolveGitHubResultsOf rev (ms1 ++ m :: ms2)
     = resolveGitHubResultsOf rev (ms1 ++ ms2).
Proof.
  intros Hconv Hfetch Hstatus.
  assert (resolveMatchOf rev m = Returned None) as Hskip.
  { apply Z.eqb_neq in Hstatus.
    destruct rev; simpl;
      unfold RawUrl.resolveMatch, RawUrl.fetchSlice,
        GistApi.resolveMatch, GistApi.fetchSlice; rewrite Hconv; simpl;
      destruct rawUrl as [|c rawUrl]; simpl; try reflexivity;
      rewrite Hfetch; simpl; rewrite Hstatus; reflexivity. }
  split; [exact Hskip|].
  rewrite !resolveGitHubResults_loop. by apply loop_skip.
Qed.

(** X9. A direct link to an empty file is skipped. *)
Theorem empty_file_is_skipped (rev : Revision) (m : GitHubMatchResult)
    (rawUrl : string) (res : Response) :
  rev = PerFileRawUrl \/ type m <> Gist ->
  converter m (url m) = Returned (Some rawUrl) ->
  fetch rawUrl = Returned res ->
  text res = EmptyString ->
  resolveMatchOf rev m = Returned None.
Proof.
  intros Hkind Hconv Hfetch Htext.
  destruct rev; simpl;
    unfold RawUrl.resolveMatch, RawUrl.fetchSlice,
      GistApi.resolveMatch, GistApi.fetchSlice; rewrite Hconv; simpl;
    destruct rawUrl as [|c rawUrl]; simpl; try reflexivity;
    rewrite Hfetch; simpl; destruct (status res =? 200); try reflexivity;
    rewrite ?Htext; try reflexivity.
  destruct Hkind as [[=]|Hty].
  destruct (type m); try done; simpl; by rewrite Htext.
Qed.

End Skips.

(** ** The files of a gist *)

Lemma parseFiles_snoc (gist_files : list (string * string)) (e : string * string) :
  GistApi.parseFiles (gist_files ++ [e])
  = GistApi.assignFile (GistApi.parseFiles gist_files) (dashed (fst e)) e.
Proof.
  unfold GistApi.parseFiles. rewrite fold_left_app. simpl. by destruct e.
Qed.

(** The own property of a name other than [__proto__] is the last file
    of the gist whose name, with every dot turned into a dash, is that
    name. *)
Lemma parseFiles_own (gist_files : list (string * string)) (k : string) :
  k <> "__proto__" ->
  GistApi.own (GistApi.parseFiles gist_files) !! k
  = last (filter (fun e => dashed (fst e) = k) gist_files).
Proof.
  intros Hk. induction gist_files as [|e l IH] using rev_ind; [reflexivity|].
  rewrite parseFiles_snoc, filter_app. unfold GistApi.assignFile.
  rewrite filter_cons, filter_nil.
  destruct (String.eqb_spec (dashed (fst e)) "__proto__") as [Hp|Hp]; simpl.
  - rewrite decide_False by congruence. by rewrite app_nil_r.
  - rewrite lookup_insert. case_decide as Hd.
    + by rewrite last_snoc.
    + by rewrite app_nil_r.
Qed.

Lemma parseFiles_own_proto (gist_files : list (string * string)) :
  GistApi.own (GistApi.parseFiles gist_files) !! "__proto__" = None.
Proof.
  induction gist_files as [|e l IH] using rev_ind; [reflexivity|].
  rewrite parseFiles_snoc. unfold GistApi.assignFile.
  destruct (String.eqb_spec (dashed (fst e)) "__proto__") as [Hp|Hp]; simpl;
    [done|]. by rewrite lookup_insert_ne.
Qed.

(** The prototype is the last file whose dashed name is [__proto__]. *)
Lemma parseFiles_proto (gist_files : list (string * string)) :
  GistApi.proto (GistApi.parseFiles gist_files)
  = last (filter (fun e => dashed (fst e) = "__proto__") gist_files).
Proof.
  induction gist_files as [|e l IH] using rev_ind; [reflexivity|].
  rewrite parseFiles_snoc, filter_app. unfold GistApi.assignFile.
  rewrite filter_cons, filter_nil.
  destruct (String.eqb_spec (dashed (fst e)) "__proto__") as [Hp|Hp]; simpl.
  - rewrite decide_True by done. by rewrite last_snoc.
  - rewrite decide_False by done. by rewrite app_nil_r.
Qed.

Lemma last_filter_is_Some {A} (P : A -> Prop) `{forall x, Decision (P x)}
    (l : list A) :
  is_Some (last (filter P l)) <-> Exists P l.
Proof.
  rewrite Exists_exists. split.
  - intros [x Hx]. apply last_Some_elem_of in Hx.
    apply list_elem_of_filter in Hx as [HP Hin]. eauto.
  - intros (x & Hin & HP).
    assert (x ∈ filter P l) as Hx by (by apply list_elem_of_filter).
    destruct (last (filter P l)) as [y|] eqn:Hlast; [by eexists|].
    apply last_None in Hlast. rewrite Hlast in Hx. by apply elem_of_nil in Hx.
Qed.

(** What [parsedFiles[k]?.parsed.content] gives after the loop: the
    contents of the last file with the dashed name [k]; without such a
    file a throw when [k] is inherited, and [undefined] otherwise. *)
Lemma lookupContent_parseFiles (gist_files : list (string * string)) (k : string) :
  GistApi.lookupContent (GistApi.parseFiles gist_files) k
  = match last (filter (fun e => dashed (fst e) = k) gist_files) with
    | Some e => Returned (Some (snd e))
    | None => if inheritedName gist_files k then Thrown else Returned None
    end.
Proof.
  unfold GistApi.lookupContent, inheritedName.
  destruct (String.eqb_spec k "__proto__") as [->|Hk].
  - rewrite parseFiles_own_proto, parseFiles_proto.
    by destruct (last _).
  - rewrite parseFiles_own by done.
    destruct (last (filter (fun e => dashed (fst e) = k) gist_files)); [done|].
    rewrite parseFiles_proto.
    rewrite (bool_decide_ext _ _
               (last_filter_is_Some (fun e => dashed (fst e) = "__proto__")
                  gist_files)).
    simpl.
    destruct (bool_decide (Exists _ gist_files) && _),
      (bool_decide (k ∈ GistApi.objectPrototypeNames)); reflexivity.
Qed.

Section GistFiles.
Context {U : Utils} {W : World}.

(** X10. The contents taken for a Gist match are those of the last file
    of the gist whose dashed name is the dashed qualifier without its
    line markers. When no file has that name, the lookup throws if the
    name is one that [parsedFiles] inherits (a function of
    [Object.prototype], [__proto__], or [raw] and [parsed] when a file
    has the dashed name [__proto__]), and gives no contents otherwise. *)
Theorem gist_file_by_dashed_name (gist_files : list (string * string))
    (o : string) :
  GistApi.fileContentsOf Gist (Some o) (RawGist gist_files)
  = match last (filter
                  (fun e => dashed (fst e) = dashed (Str.remove_all_markers o))
                  gist_files) with
    | Some e => Returned (Some (snd e))
    | None =>
        if inheritedName gist_files (dashed (Str.remove_all_markers o))
        then Thrown else Returned None
    end.
Proof.
  unfold GistApi.fileContentsOf. simpl.
  apply (lookupContent_parseFiles gist_files (dashed (Str.remove_all_markers o))).
Qed.

(** X11. A Gist match whose qualifier names no file of the fetched gist
    is skipped, unless the dashed qualifier is a name that
    [parsedFiles] inherits: then the iteration throws. *)
Theorem missing_gist_file_is_skipped (m : GitHubMatchResult)
    (rawData o : string) (res : Response) (gist_files : list (string * string)) :
  type m = Gist ->
  opts m = Some o ->
  converter m (url m) = Returned (Some rawData) ->
  rawData <> EmptyString ->
  fetch rawData = Returned res ->
  status res = 200 ->
  json res = Returned (Some (RawGist gist_files)) ->
  Forall (fun e => dashed (fst e) <> dashed (Str.remove_all_markers o)) gist_files ->
  resolveMatchOf MetadataApi m
  = if inheritedName gist_files (dashed (Str.remove_all_markers o))
    then Thrown else Returned None.
Proof.
  intros Hty Ho Hconv Hne Hfetch Hstatus Hjson Hnone. simpl.
  unfold GistApi.resolveMatch, GistApi.fetchSlice. rewrite Hconv. simpl.
  destruct rawData as [|c rawData]; [done|]. simpl.
  rewrite Hfetch. simpl. rewrite Hstatus, Hty. simpl. rewrite Hjson. simpl.
  rewrite Ho.
  change (Str.replaceAll "." "-" (Str.remove_all_markers o))
    with (dashed (Str.remove_all_markers o)).
  rewrite (lookupContent_parseFiles gist_files (dashed (Str.remove_all_markers o))).
  replace (filter _ gist_files) with (@nil (string * string)).
  - simpl. by destruct (inheritedName gist_files _).
  - symmetry. clear Hjson. induction Hnone as [|e l He _ IH]; [reflexivity|].
    rewrite filter_cons, decide_False by done. exact IH.
Qed.

End GistFiles.

Lemma other_status_is_skipped_witness :
  @resolveMatchOf Model.utils Scenario.net MetadataApi Cases.missingMatch
  = Returned None
  /\ @resolveGitHubResultsOf Model.utils Scenario.net MetadataApi
       ([Scenario.linkMatch] ++ Cases.missingMatch :: [Scenario.gistMatch MetadataApi])
     = @resolveGitHubResultsOf Model.utils Scenario.net MetadataApi
         ([Scenario.linkMatch] ++ [Scenario.gistMatch MetadataApi]).
Proof.
  apply (@other_status_is_skipped Model.utils Scenario.net MetadataApi
           Cases.missingMatch
           "https://raw.githubusercontent.com/u/r/main/missing.go#L1"
           Model.notFound).
  - vm_compute; reflexivity.
  - vm_compute; reflexivity.
  - discriminate.
Defined.

Lemma empty_file_is_skipped_witness :
  @resolveMatchOf Model.utils Cases.emptyNet MetadataApi Cases.emptyMatch
  = Returned None.
Proof.
  apply (@empty_file_is_skipped Model.utils Cases.emptyNet MetadataApi
           Cases.emptyMatch
           "https://raw.githubusercontent.com/u/r/main/empty.txt#L1"
           (Model.ok EmptyString)).
  - right. discriminate.
  - vm_compute; reflexivity.
  - vm_compute; reflexivity.
  - reflexivity.
Defined.

Lemma missing_gist_file_is_skipped_witness :
  @resolveMatchOf Model.utils Scenario.net MetadataApi Cases.otherFileMatch
  = if inheritedName Scenario.notes (dashed (Str.remove_all_markers "other-md-L1"))
    then Thrown else Returned None.
Proof.
  apply (@missing_gist_file_is_skipped Model.utils Scenario.net
           Cases.otherFileMatch "https://api.github.com/gists/0123abcd"
           "other-md-L1" (Model.okGist Scenario.notes) Scenario.notes).
  - reflexivity.
  - reflexivity.
  - vm_compute; reflexivity.
  - discriminate.
  - vm_compute; reflexivity.
  - reflexivity.
  - reflexivity.
  - constructor; [vm_compute; discriminate | constructor].
Defined.

(** The qualifier [other-md] is skipped, the qualifier [constructor]
    makes the iteration throw: the gist has neither file. *)
Example inherited_name_throws :
  @resolveMatchOf Model.utils Scenario.net MetadataApi Cases.otherFileMatch
  = Returned None
  /\ @resolveMatchOf Model.utils Scenario.net MetadataApi Cases.constructorMatch
     = Thrown.
Proof. split; vm_compute; reflexivity. Qed.

(** Names answered by the prototype chain of [parsedFiles]: a file
    with the dashed name [__proto__] is found through the getter and
    makes [raw] throw; without any file [toString] throws and a name
    that nothing answers gives no contents. *)
Example inherited_names :
  GistApi.fileContentsOf Gist (Some "__proto__") (RawGist [("__proto__", "p")])
  = Returned (Some "p")
  /\ GistApi.fileContentsOf Gist (Some "raw") (RawGist [("__proto__", "p")])
     = Thrown
  /\ GistApi.fileContentsOf Gist (Some "raw") (RawGist [("notes.md", "a")])
     = Returned None
  /\ GistApi.fileContentsOf Gist (Some "toString") (RawGist []) = Thrown
  /\ GistApi.fileContentsOf Gist (Some "tostring") (RawGist [])
     = Returned None.
Proof. repeat split; vm_compute; reflexivity. Qed.

(** Two files whose names differ only in a dot and a dash are looked
    up under the same name; the later one is shown. *)
Example later_gist_file_wins :
  GistApi.fileContentsOf Gist (Some "a-b-L1")
    (RawGist [("a.b", "first"); ("c.d", "other"); ("a-b", "second")])
  = Returned (Some "second").
Proof.
  unfold GistApi.fileContentsOf. simpl.
  change (Str.replaceAll "." "-" (Str.remove_all_markers "a-b-L1"))
    with (dashed (Str.remove_all_markers "a-b-L1")).
  rewrite lookupContent_parseFiles. reflexivity.
Qed.

(** ** The converter of direct links on other links *)

Lemma replace_eq (pat rep s : string) :
  Str.replace pat rep s
  = if String.prefix pat s then rep +:+ Str.drop (String.length pat) s
    else match s with
         | EmptyString => EmptyString
         | String c s' => String c (Str.replace pat rep s')
         end.
Proof. by destruct s. Qed.

Lemma remove_blob_eq (s : string) :
  Str.remove_blob s
  = if String.prefix "/blob" s then Str.drop 5 s
    else if String.prefix "/blame" s then Str.drop 6 s
    else match s with
         | EmptyString => EmptyString
         | String c s' => String c (Str.remove_blob s')
         end.
Proof. by destruct s. Qed.

Lemma replace_absent (pat rep s : string) :
  Str.includes pat s = false -> Str.replace pat rep s = s.
Proof.
  induction s as [|c s IH].
  - rewrite includes_nil. intros Hs. apply orb_false_elim in Hs as [Hp _].
    rewrite replace_eq, Hp. reflexivity.
  - rewrite includes_cons. intros Hs. apply orb_false_elim in Hs as [Hp Hs].
    rewrite replace_eq, Hp, IH by done. reflexivity.
Qed.

Lemma prefix_cons (a : ascii) (p : string) (c : ascii) (s : string) :
  String.prefix (String a p) (String c s)
  = if ascii_dec a c then String.prefix p s else false.
Proof. reflexivity. Qed.

Lemma prefix_slash (p : string) (c : ascii) (s : string) :
  Ascii.eqb c "/" = false -> String.prefix (String "/" p) (String c s) = false.
Proof.
  intros Hc. rewrite prefix_cons.
  destruct (ascii_dec "/" c) as [<-|_]; [discriminate | done].
Qed.

Lemma remove_blob_plain (seg tail : string) :
  plain seg = true ->
  Str.remove_blob (seg +:+ tail) = seg +:+ Str.remove_blob tail.
Proof.
  induction seg as [|c seg IH]; [reflexivity|].
  simpl plain. intros Hp. apply andb_true_iff in Hp as [Hc Hp].
  apply negb_true_iff in Hc.
  rewrite !append_cons, remove_blob_eq, !prefix_slash, IH by done.
  reflexivity.
Qed.

(** A name that does not start with [p] and has no [/] does not start
    with [p] when followed by [/], for [p] without [/]. *)
Lemma prefix_plain (p seg tail : string) :
  plain p = true -> p <> EmptyString ->
  plain seg = true ->
  String.prefix p seg = false ->
  String.prefix p (seg +:+ "/" +:+ tail) = false.
Proof.
  revert seg; induction p as [|a p IH]; intros seg Hp Hne Hseg Hpre; [done|].
  simpl in Hp. apply andb_true_iff in Hp as [Ha Hp]. apply negb_true_iff in Ha.
  destruct seg as [|c seg].
  - change (EmptyString +:+ "/" +:+ tail) with (String "/" tail).
    rewrite prefix_cons. destruct (ascii_dec a "/") as [->|_]; [discriminate | done].
  - simpl in Hseg. apply andb_true_iff in Hseg as [_ Hseg].
    rewrite append_cons, prefix_cons. rewrite prefix_cons in Hpre.
    destruct (ascii_dec a c); [|done].
    destruct p as [|b p]; [by destruct seg|]. by apply IH.
Qed.

Lemma remove_blob_segment (seg tail : string) :
  plain seg = true ->
  String.prefix "blob" seg = false ->
  String.prefix "blame" seg = false ->
  Str.remove_blob ("/" +:+ seg +:+ "/" +:+ tail)
  = "/" +:+ seg +:+ Str.remove_blob ("/" +:+ tail).
Proof.
  intros Hseg Hblob Hblame.
  pose proof (prefix_plain "blob" seg tail eq_refl ltac:(done) Hseg Hblob) as H1.
  pose proof (prefix_plain "blame" seg tail eq_refl ltac:(done) Hseg Hblame) as H2.
  change ("/" +:+ seg +:+ "/" +:+ tail) with (String "/" (seg +:+ "/" +:+ tail)).
  rewrite remove_blob_eq.
  change (String.prefix "/blob" (String "/" (seg +:+ "/" +:+ tail)))
    with (String.prefix "blob" (seg +:+ "/" +:+ tail)).
  change (String.prefix "/blame" (String "/" (seg +:+ "/" +:+ tail)))
    with (String.prefix "blame" (seg +:+ "/" +:+ tail)).
  rewrite H1, H2, remove_blob_plain by done. reflexivity.
Qed.

Lemma replace_host (t : string) :
  Str.replace "github.com" "raw.githubusercontent.com" ("https://github.com/" +:+ t)
  = "https://raw.githubusercontent.com/" +:+ t.
Proof. reflexivity. Qed.

Lemma remove_blob_host (t : string) :
  Str.remove_blob ("https://raw.githubusercontent.com/" +:+ t)
  = "https://raw.githubusercontent.com" +:+ Str.remove_blob ("/" +:+ t).
Proof.
  change ("https://raw.githubusercontent.com/" +:+ t)
    with ("https:" +:+ ("/" +:+ EmptyString +:+ "/"
            +:+ ("raw.githubusercontent.com" +:+ "/" +:+ t))).
  rewrite (remove_blob_plain "https:") by reflexivity.
  rewrite (remove_blob_segment EmptyString) by reflexivity.
  rewrite (remove_blob_segment "raw.githubusercontent.com") by reflexivity.
  reflexivity.
Qed.

(** X15. For a blob or blame link without [>] whose owner and repository
    names do not start with [blob] or [blame], the converter rewrites
    the host to the raw-content host and removes the [/blob] or
    [/blame] segment, keeping the rest of the link. *)
Theorem normalConverter_removes_segment (kind owner repo rest : string) :
  kind = "blob" \/ kind = "blame" ->
  plain owner = true -> plain repo = true ->
  String.prefix "blob" owner = false -> String.prefix "blame" owner = false ->
  String.prefix "blob" repo = false -> String.prefix "blame" repo = false ->
  Str.includes ">"
    ("https://github.com/" +:+ owner +:+ "/" +:+ repo +:+ "/" +:+ kind +:+ "/"
       +:+ rest)
  = false ->
  Common.normalConverter
    ("https://github.com/" +:+ owner +:+ "/" +:+ repo +:+ "/" +:+ kind +:+ "/"
       +:+ rest)
  = Returned
      (Some ("https://raw.githubusercontent.com/" +:+ owner +:+ "/" +:+ repo
               +:+ "/" +:+ rest)).
Proof.
  intros Hkind Ho Hr Ho1 Ho2 Hr1 Hr2 Hgt. unfold Common.normalConverter.
  apply replace_absent with (rep := EmptyString) in Hgt.
  f_equal. f_equal.
  etransitivity;
    [apply (f_equal Str.remove_blob); apply (f_equal (Str.replace _ _)); exact Hgt|].
  etransitivity; [apply (f_equal Str.remove_blob); apply replace_host|].
  etransitivity; [apply remove_blob_host|].
  etransitivity;
    [apply (f_equal (String.append _)); apply remove_blob_segment; assumption|].
  etransitivity;
    [apply (f_equal (String.append _)); apply (f_equal (String.append _));
     apply (f_equal (String.append _));
     apply (remove_blob_segment repo (kind +:+ "/" +:+ rest)); assumption|].
  by destruct Hkind as [-> | ->].
Qed.

Lemma normalConverter_removes_segment_witness :
  Common.normalConverter
    ("https://github.com/" +:+ "rocq-prover" +:+ "/" +:+ "rocq" +:+ "/" +:+ "blame"
       +:+ "/" +:+ "master/theories/Init/Nat.v#L10-L12")
  = Returned
      (Some ("https://raw.githubusercontent.com/" +:+ "rocq-prover" +:+ "/"
               +:+ "rocq" +:+ "/" +:+ "master/theories/Init/Nat.v#L10-L12")).
Proof.
  apply (normalConverter_removes_segment "blame" "rocq-prover" "rocq"
           "master/theories/Init/Nat.v#L10-L12"); auto.
Defined.

(** ** Line markers at the end of a Gist qualifier *)

Lemma append_assoc (a b c : string) : a +:+ b +:+ c = (a +:+ b) +:+ c.
Proof.
  induction a as [|x a IH]; [reflexivity|].
  by rewrite !append_cons, IH.
Qed.

Lemma all_digits_app (a b : string) :
  Str.all_digits (a +:+ b) = Str.all_digits a && Str.all_digits b.
Proof.
  induction a as [|c a IH]; [reflexivity|].
  rewrite append_cons. simpl. rewrite IH. by rewrite andb_assoc.
Qed.

Lemma digits_head (d : string) :
  digits d = true ->
  exists c d', d = String c d' /\ Str.is_digit c = true /\ Str.all_digits d' = true.
Proof.
  unfold digits. destruct d as [|c d']; [intros Hd; by vm_compute in Hd|].
  intros Hd. apply andb_true_iff in Hd as [Hd _]. simpl in Hd.
  apply andb_true_iff in Hd as [Hc Hd]. by exists c, d'.
Qed.

Lemma is_end_marker_marker (d : string) :
  digits d = true -> Str.is_end_marker (marker d) = true.
Proof.
  intros Hd. apply digits_head in Hd as (c & d' & -> & Hc & Hd').
  simpl. by rewrite Hc, Hd'.
Qed.

(** A marker at the end is not part of a longer match of [/-L\d+$/]. *)
Lemma is_end_marker_inside (x d : string) :
  x <> EmptyString -> Str.is_end_marker (x +:+ marker d) = false.
Proof.
  intros Hx. destruct x as [|c1 [|c2 [|c3 x]]]; [done| | |].
  - change (Str.is_end_marker (String c1 (String "-" (String "L" d))) = false).
    simpl. by repeat case_match.
  - change (Str.is_end_marker
              (String c1 (String c2 (String "-" (String "L" d)))) = false).
    simpl. by repeat case_match.
  - rewrite !append_cons.
    change (Str.is_end_marker (String c1 (String c2 (String c3 (x +:+ marker d))))
            = false).
    cbn [Str.is_end_marker].
    assert (Str.all_digits (x +:+ marker d) = false) as Hno.
    { rewrite all_digits_app. unfold marker. simpl. apply andb_false_r. }
    rewrite Hno, andb_false_r. by repeat case_match.
Qed.

Lemma remove_end_marker_eq (s : string) :
  Str.remove_end_marker s
  = if Str.is_end_marker s then EmptyString
    else match s with
         | EmptyString => EmptyString
         | String c s' => String c (Str.remove_end_marker s')
         end.
Proof. by destruct s. Qed.

(** A marker at the end of any text is removed, and only it. *)
Lemma remove_end_marker_marker (q d : string) :
  digits d = true -> Str.remove_end_marker (q +:+ marker d) = q.
Proof.
  intros Hd. induction q as [|c q IH].
  - change (EmptyString +:+ marker d) with (marker d).
    by rewrite remove_end_marker_eq, is_end_marker_marker.
  - rewrite remove_end_marker_eq, is_end_marker_inside by done.
    rewrite append_cons. by rewrite IH.
Qed.

(** X12. The two passes of [/-L\d+$/] remove a line range [-L<a>-L<b>] from
    the end of a qualifier, and a single marker [-L<a>] from the end of
    a qualifier that does not itself end with a marker. *)
Theorem fileQualifier_removes_range (q a b : string) :
  digits a = true -> digits b = true ->
  GistApi.fileQualifier (q +:+ marker a +:+ marker b) = q
  /\ (Str.remove_end_marker q = q -> GistApi.fileQualifier (q +:+ marker a) = q).
Proof.
  intros Ha Hb. unfold GistApi.fileQualifier. split.
  - rewrite (append_assoc q (marker a) (marker b)).
    by rewrite !remove_end_marker_marker.
  - intros Hq. by rewrite remove_end_marker_marker, Hq.
Qed.

Lemma fileQualifier_removes_range_witness :
  GistApi.fileQualifier ("notes-md" +:+ marker "2" +:+ marker "13") = "notes-md"
  /\ (Str.remove_end_marker "notes-md" = "notes-md"
      -> GistApi.fileQualifier ("notes-md" +:+ marker "2") = "notes-md").
Proof. apply (fileQualifier_removes_range "notes-md" "2" "13"); reflexivity. Defined.

Section GistPath.
Context {U : Utils} {W : World}.

Lemma gist_slice_path (m : GitHubMatchResult) (s : Common.Slice) (o p : string) :
  type m = Gist ->
  opts m = Some o ->
  pathname (url m) = Returned p ->
  GistApi.fetchSlice m = Returned (Some s) ->
  Common.s_type s = Gist
  /\ Common.s_path s = p +:+ "#file-" +:+ GistApi.fileQualifier o
  /\ Common.s_lang s
     = resolveFileLanguage (Str.replaceAll "-" "." (GistApi.fileQualifier o)).
Proof.
  intros Hty Ho Hp Hs. unfold GistApi.fetchSlice, obind in Hs.
  rewrite Hty, Ho, Hp in Hs. simpl in Hs.
  repeat case_match; simplify_eq; simpl; done.
Qed.

(** X13. For a Gist link with a line range the revision with the metadata
    API shows the path of the link followed by [#file-] and the
    qualifier without the range; the language is resolved from the
    qualifier with dashes as dots, and an attachment is named by that
    path, a dot and the language. *)
Theorem gist_path_without_range (m : GitHubMatchResult) (s : Common.Slice)
    (q a b p : string) :
  type m = Gist ->
  opts m = Some (q +:+ marker a +:+ marker b) ->
  digits a = true -> digits b = true ->
  pathname (url m) = Returned p ->
  fetchSliceOf MetadataApi m = Returned (Some s) ->
  Common.s_path s = p +:+ "#file-" +:+ q
  /\ Common.s_lang s = resolveFileLanguage (Str.replaceAll "-" "." q)
  /\ map name (files (Common.attachmentResult s))
     = [p +:+ "#file-" +:+ q +:+ "."
          +:+ resolveFileLanguage (Str.replaceAll "-" "." q)].
Proof.
  intros Hty Ho Ha Hb Hp Hs.
  destruct (gist_slice_path m s _ p Hty Ho Hp Hs) as (Hst & Hpath & Hlang).
  assert (GistApi.fileQualifier (q +:+ marker a +:+ marker b) = q) as Hq.
  { unfold GistApi.fileQualifier.
    rewrite (append_assoc q (marker a) (marker b)).
    by rewrite !remove_end_marker_marker. }
  rewrite Hq in Hpath, Hlang. split; [done|]. split; [done|].
  unfold Common.attachmentResult. simpl. rewrite Hst, Hpath, Hlang. simpl.
  by rewrite <- !append_assoc.
Qed.

End GistPath.

Lemma gist_path_without_range_witness :
  Common.s_path Scenario.gistSlice = "/me/0123abcd" +:+ "#file-" +:+ "notes-md"
  /\ Common.s_lang Scenario.gistSlice
     = Model.resolveFileLanguage (Str.replaceAll "-" "." "notes-md")
  /\ map name (files (@Common.attachmentResult Model.utils Scenario.gistSlice))
     = ["/me/0123abcd" +:+ "#file-" +:+ "notes-md" +:+ "."
          +:+ Model.resolveFileLanguage (Str.replaceAll "-" "." "notes-md")].
Proof.
  apply (@gist_path_without_range Model.utils Scenario.net
           (Scenario.gistMatch MetadataApi) Scenario.gistSlice
           "notes-md" "2" "3" "/me/0123abcd").
  - reflexivity.
  - reflexivity.
  - reflexivity.
  - reflexivity.
  - vm_compute; reflexivity.
  - vm_compute; reflexivity.
Defined.

(** ** The converter of Gist links with per-file raw URLs *)

Lemma split_eq (sep : ascii) (c : ascii) (s : string) :
  Str.split sep (String c s)
  = if Ascii.eqb c sep then EmptyString :: Str.split sep s
    else match Str.split sep s with
         | h :: t => String c h :: t
         | [] => [String c EmptyString]
         end.
Proof. reflexivity. Qed.

Lemma join_cons2 (sep a b : string) (l : list string) :
  Str.join sep (a :: b :: l) = a +:+ sep +:+ Str.join sep (b :: l).
Proof. reflexivity. Qed.

(** Splitting at dashes and joining with dots turns every dash into a
    dot. *)
Lemma join_split_dashes (s : string) :
  Str.join "." (Str.split "-" s) = Str.replaceAll "-" "." s.
Proof.
  induction s as [|c s IH]; [reflexivity|].
  rewrite split_eq. cbn [Str.replaceAll]. rewrite <- IH.
  pose proof (split_nonempty "-" s) as Hne.
  destruct (Ascii.eqb c "-").
  - destruct (Str.split "-" s) as [|h t]; [done|]. by rewrite join_cons2.
  - destruct (Str.split "-" s) as [|h [|h' t]]; [done|reflexivity|].
    by rewrite !join_cons2, append_cons.
Qed.

Lemma split_without_dash (s : string) :
  Str.includes "-" s = false -> Str.split "-" s = [s].
Proof.
  induction s as [|c s IH]; [reflexivity|].
  rewrite includes_cons, split_eq. intros Hs.
  apply orb_false_elim in Hs as [Hc Hs]. rewrite (IH Hs).
  rewrite prefix_cons in Hc.
  destruct (Ascii.eqb_spec c "-") as [->|_]; [|reflexivity].
  destruct (ascii_dec "-" "-"); [by destruct s | done].
Qed.

Lemma split_with_dash (s : string) :
  Str.includes "-" s = true -> (2 <= length (Str.split "-" s))%nat.
Proof.
  induction s as [|c s IH]; [done|].
  rewrite includes_cons, split_eq. intros Hs.
  pose proof (split_length "-" s) as Hlen.
  destruct (Ascii.eqb_spec c "-") as [->|Hne]; [simpl; lia|].
  apply orb_true_iff in Hs as [Hc|Hs].
  - rewrite prefix_cons in Hc. destruct (ascii_dec "-" c); [congruence|done].
  - specialize (IH Hs). destruct (Str.split "-" s); simpl in *; lia.
Qed.

(** [l.slice(0, -1)] and [l.pop()] put together again. *)
Lemma join_init_last (sep : string) (l : list string) :
  (2 <= length l)%nat ->
  Str.join sep (Js.slice l (Js.Num 0) (Js.Num (-1))) +:+ sep
    +:+ default "undefined" (last l)
  = Str.join sep l.
Proof.
  intros Hlen. generalize Hlen.
  assert (Js.slice l (Js.Num 0) (Js.Num (-1)) = removelast l) as ->.
  { unfold Js.slice, Js.relative. simpl Js.to_integer.
    rewrite Z.ltb_irrefl.
    destruct (Z.ltb_spec (-1) 0) as [_|?]; [|lia].
    rewrite Z.min_l, Z.max_l, Z.sub_0_r by lia. simpl drop.
    replace (Z.to_nat (Z.of_nat (length l) + -1)) with (length l - 1)%nat by lia.
    change (Z.to_nat 0) with 0%nat. rewrite removelast_firstn_len.
    by rewrite Nat.sub_1_r. }
  clear Hlen. induction l as [|a [|b l] IH]; intros Hlen; simpl in Hlen; try lia.
  destruct l as [|c l]; [reflexivity|].
  change (removelast (a :: b :: c :: l)) with (a :: removelast (b :: c :: l)).
  change (last (a :: b :: c :: l)) with (last (b :: c :: l)).
  rewrite (join_cons2 sep a b (c :: l)), <- IH by (simpl; lia).
  assert (exists x y, removelast (b :: c :: l) = x :: y) as (x & y & ->).
  { simpl. destruct l; eauto. }
  rewrite join_cons2. by rewrite <- !append_assoc.
Qed.

Section RawGist.
Context {P : Patterns}.

(** X14. The raw URL of a Gist link: the file name is the qualifier with
    every dash turned into a dot; a qualifier without a dash gives a
    file name that starts with a dot. *)
Theorem gistConverter_raw_url (u user gist o : string) (groups : RegExpExecArray) :
  GistGitHubUrlRegex (Str.remove_markers u) = Some groups ->
  g_user groups = Some user -> g_id groups = Some gist -> g_opts groups = Some o ->
  user <> EmptyString -> gist <> EmptyString -> o <> EmptyString ->
  RawUrl.gistConverter u
  = Returned
      (Some ("https://gist.githubusercontent.com/" +:+ user +:+ "/" +:+ gist
               +:+ "/raw/"
               +:+ (if Str.includes "-" o then Str.replaceAll "-" "." o
                    else "." +:+ o))).
Proof.
  intros Hexec Huser Hid Ho Hu Hi Hq. unfold RawUrl.gistConverter.
  assert (forall s, s <> EmptyString -> Str.falsy (Some s) = false) as Hfalsy
    by (by intros [|? ?]).
  rewrite Hexec, Huser, Hid, Ho, !Hfalsy by done.
  cbn [orb default from_option id]. do 2 f_equal.
  do 5 apply (f_equal (String.append _)).
  destruct (Str.includes "-" o) eqn:Hdash.
  - rewrite <- join_split_dashes. apply join_init_last. by apply split_with_dash.
  - by rewrite (split_without_dash _ Hdash).
Qed.

End RawGist.

Lemma gistConverter_raw_url_witness :
  @RawUrl.gistConverter Model.patterns Scenario.gistLink
  = Returned
      (Some ("https://gist.githubusercontent.com/" +:+ "me" +:+ "/" +:+ "0123abcd"
               +:+ "/raw/"
               +:+ (if Str.includes "-" "notes-md"
                    then Str.replaceAll "-" "." "notes-md"
                    else "." +:+ "notes-md"))).
Proof.
  apply (@gistConverter_raw_url Model.patterns Scenario.gistLink "me" "0123abcd"
           "notes-md"
           {| whole := "https://gist.github.com/me/0123abcd#file-notes-md";
              g_user := Some "me"; g_id := Some "0123abcd";
              g_opts := Some "notes-md" |});
    try reflexivity; discriminate.
Defined.

(** ** The lines that are sliced *)

Lemma slice_between {A} (arr : list A) (a b : Z) :
  1 <= a -> a <= b + 1 -> b <= Z.of_nat (length arr) ->
  Js.slice arr (Js.sub (Js.Num a) (Js.Num 1)) (Js.Num b)
  = take (Z.to_nat (b - a + 1)) (drop (Z.to_nat (a - 1)) arr).
Proof.
  intros Ha Hab Hb. unfold Js.slice, Js.relative. simpl Js.to_integer.
  destruct (Z.ltb_spec (a - 1) 0) as [?|_]; [lia|].
  destruct (Z.ltb_spec b 0) as [?|_]; [lia|].
  rewrite !Z.min_l by lia. f_equal. lia.
Qed.

Section Slicing.
Context {U : Utils} {W : World}.

(** For a range [L<a>-L<b>] with [1 <= a <= b] both revisions slice
    the lines [min a n] to [min b n] of a file of [n] lines, ends
    included: line [k] of the file is line [k - min a n + 1] of the
    slice. *)
Lemma lines_of_range (rev : Revision) (a b : Z) (contents : string) :
  1 <= a -> a <= b ->
  let lines := Str.split (ascii_of_nat 10) contents in
  let n := Z.of_nat (length lines) in
  let first := Z.min a n in
  let last := Z.min b n in
  let sliced := Js.slice lines (Js.sub (Js.Num first) (Js.Num 1)) (Js.Num last) in
  safeLinesOf rev {| startLine := Js.Num a; endLine := Js.Num b |} (length lines)
  = (Js.Num first, Js.Num last)
  /\ Z.of_nat (length sliced) = last - first + 1
  /\ forall k, first <= k <= last ->
       line_at sliced (k - first + 1) = line_at lines k.
Proof.
  intros Ha Hab lines n first last sliced.
  pose proof (split_length (ascii_of_nat 10) contents) as Hn. fold lines in Hn.
  assert (Js.truthy (Js.Num a) = true) as Hta
    by (simpl; destruct (Z.eqb_spec a 0); [lia | done]).
  assert (Js.truthy (Js.Num b) = true) as Htb
    by (simpl; destruct (Z.eqb_spec b 0); [lia | done]).
  assert (sliced
          = take (Z.to_nat (last - first + 1)) (drop (Z.to_nat (first - 1)) lines))
    as Hsl by (apply slice_between; lia).
  split; [|split].
  - destruct rev; simpl; unfold RawUrl.safeLines, GistApi.safeLines, Js.or;
      cbn [startLine endLine]; rewrite ?Hta, Htb; reflexivity.
  - rewrite Hsl, length_take, length_drop. lia.
  - intros k Hk. unfold line_at.
    destruct (Z.ltb_spec 0 (k - first + 1)) as [_|?]; [|lia].
    destruct (Z.ltb_spec 0 k) as [_|?]; [|lia].
    rewrite Hsl, lookup_take_lt by lia. rewrite lookup_drop. f_equal. lia.
Qed.

(** A start line beyond the end of the file, without an end line,
    slices the last line of the file. *)
Lemma last_line_beyond_file (rev : Revision) (a : Z)
    (finish : Js.num) (contents : string) :
  let lines := Str.split (ascii_of_nat 10) contents in
  let n := Z.of_nat (length lines) in
  n < a ->
  Js.truthy finish = false ->
  safeLinesOf rev {| startLine := Js.Num a; endLine := finish |} (length lines)
  = (Js.Num n, Js.Num n)
  /\ exists x,
       last lines = Some x
       /\ Js.slice lines (Js.sub (Js.Num n) (Js.Num 1)) (Js.Num n) = [x].
Proof.
  intros lines n Ha Hfinish.
  pose proof (split_length (ascii_of_nat 10) contents) as Hn. fold lines in Hn.
  assert (Js.truthy (Js.Num a) = true) as Hta
    by (simpl; destruct (Z.eqb_spec a 0); [lia | done]).
  split.
  - destruct rev; simpl; unfold RawUrl.safeLines, GistApi.safeLines, Js.or;
      cbn [startLine endLine]; rewrite ?Hta, Hfinish; simpl;
      rewrite Z.min_r by lia; reflexivity.
  - destruct (last lines) as [x|] eqn:Hlast.
    + exists x. split; [done|]. apply slice_single; [lia|].
      rewrite last_lookup in Hlast. rewrite <- Hlast. f_equal. lia.
    + apply last_None in Hlast. rewrite Hlast in Hn. simpl in Hn. lia.
Qed.

(** A range whose end line is before its start line, and before the
    end of the file, slices no line. *)
Lemma no_line_of_reversed_range (rev : Revision) (a b : Z) (contents : string) :
  let lines := Str.split (ascii_of_nat 10) contents in
  let n := Z.of_nat (length lines) in
  1 <= b -> b < a -> b < n ->
  exists first last,
    safeLinesOf rev {| startLine := Js.Num a; endLine := Js.Num b |} (length lines)
    = (Js.Num first, Js.Num last)
    /\ Js.slice lines (Js.sub (Js.Num first) (Js.Num 1)) (Js.Num last) = [].
Proof.
  intros lines n Hb Hba Hbn.
  assert (Js.truthy (Js.Num a) = true) as Hta
    by (simpl; destruct (Z.eqb_spec a 0); [lia | done]).
  assert (Js.truthy (Js.Num b) = true) as Htb
    by (simpl; destruct (Z.eqb_spec b 0); [lia | done]).
  exists (Z.min a n), b. split.
  - destruct rev; simpl; unfold RawUrl.safeLines, GistApi.safeLines, Js.or;
      cbn [startLine endLine]; rewrite ?Hta, Htb; simpl;
      fold lines; fold n; rewrite (Z.min_l b n) by lia; reflexivity.
  - unfold Js.slice, Js.relative. simpl Js.to_integer. fold n.
    destruct (Z.ltb_spec (Z.min a n - 1) 0) as [?|_]; [lia|].
    destruct (Z.ltb_spec b 0) as [?|_]; [lia|].
    replace (Z.to_nat (Z.min b n - Z.min (Z.min a n - 1) n)) with 0%nat by lia.
    reflexivity.
Qed.

(** X19. The header of an inline result: its end line is the start line
    plus the number of lines that survived the truncation minus one,
    and it is marked as ellipsed exactly when that number is not the
    number of requested lines. *)
Theorem inline_header_shows_rendered_lines (s : Common.Slice) (a b : Z) :
  Common.safeStartLine s = Js.Num a ->
  Common.safeEndLine s = Js.Num b ->
  1 <= a -> a <= b -> b <= Z.of_nat (length (Common.parsedLines s)) ->
  Common.hasCodeBlock s = false ->
  Str.len (Common.inlineContent s) < 2000 ->
  let k := Z.of_nat (length (Common.safeLinesRequested s)) in
  Common.render s
  = {| content :=
         generateHeader (Js.Num a) (Js.Num (a + k - 1)) (Common.s_path s)
           (Some (negb (k =? b - a + 1)))
           +:+ Str.nl
           +:+ codeBlock (Common.s_lang s)
                 (Str.or (Str.join Str.nl (Common.safeLinesRequested s))
                    "Couldn't find any lines");
       files := [] |}.
Proof.
  intros Hs He Ha Hab Hb Hfence Hlen k.
  unfold Common.render. rewrite Hfence.
  destruct (Z.leb_spec 2000 (Str.len (Common.inlineContent s))) as [?|_]; [lia|].
  f_equal. unfold Common.inlineContent, Common.renderedEndLine.
  rewrite Hs. cbn [Js.add Js.sub].
  assert (Z.of_nat (length (Common.linesRequested s)) = b - a + 1) as Hreq.
  { unfold Common.linesRequested. rewrite Hs, He, slice_between by lia.
    rewrite length_take, length_drop. lia. }
  replace (Z.of_nat (length (Common.safeLinesRequested s)) + a - 1)
    with (a + k - 1) by (unfold k; lia).
  replace (length (Common.safeLinesRequested s) =? length (Common.linesRequested s))%nat
    with (k =? b - a + 1); [reflexivity|].
  unfold k. rewrite <- Hreq.
  destruct (Nat.eqb_spec (length (Common.safeLinesRequested s))
              (length (Common.linesRequested s))) as [->|Hne].
  - apply Z.eqb_refl.
  - apply Z.eqb_neq. lia.
Qed.

(** X20. Resolving the matches of two lists one after the other gives the
    results of the first list followed by those of the second; a throw
    in either makes the whole throw. *)
Theorem resolveGitHubResults_app (rev : Revision)
    (ms1 ms2 : list GitHubMatchResult) :
  resolveGitHubResultsOf rev (ms1 ++ ms2)
  = let! rs1 := resolveGitHubResultsOf rev ms1 in
    let! rs2 := resolveGitHubResultsOf rev ms2 in
    Returned (rs1 ++ rs2).
Proof. rewrite !resolveGitHubResults_loop. apply loop_app. Qed.

End Slicing.

Section SlicedLines.
Context {U : Utils} {W : World}.

(** X16. For a fetched match whose qualifier resolves to the range
    [a] to [b] with [1 <= a <= b], the handler slices the lines
    [min a n] to [min b n] of the file of [n] lines, ends included:
    line [k] of the file is line [k - min a n + 1] of [linesRequested]. *)
Theorem range_is_inclusive (rev : Revision) (m : GitHubMatchResult)
    (s : Common.Slice) (a b : Z) :
  fetchSliceOf rev m = Returned (Some s) ->
  resolveLines (opts m) = {| startLine := Js.Num a; endLine := Js.Num b |} ->
  1 <= a -> a <= b ->
  let n := Z.of_nat (length (Common.parsedLines s)) in
  let first := Z.min a n in
  let last := Z.min b n in
  Common.safeStartLine s = Js.Num first
  /\ Common.safeEndLine s = Js.Num last
  /\ Z.of_nat (length (Common.linesRequested s)) = last - first + 1
  /\ forall k, first <= k <= last ->
       line_at (Common.linesRequested s) (k - first + 1)
       = line_at (Common.parsedLines s) k.
Proof.
  intros Hs Hrange Ha Hab n first last.
  destruct (fetchSlice_clamped rev m s Hs) as (_ & [contents Hlines] & Hsafe).
  rewrite Hrange in Hsafe.
  destruct (lines_of_range rev a b contents Ha Hab) as (Hclamp & Hlen & Hline).
  rewrite <- Hlines in Hclamp, Hlen, Hline.
  rewrite Hclamp in Hsafe. injection Hsafe as Hstart Hend.
  unfold Common.linesRequested. rewrite Hstart, Hend. done.
Qed.

(** X17. For a fetched match whose start line is beyond the end of the
    file and that has no end line, the handler clamps both lines to
    the line count and [linesRequested] is the last line of the file. *)
Theorem start_beyond_file_gives_last_line (rev : Revision)
    (m : GitHubMatchResult) (s : Common.Slice) (a : Z) (finish : Js.num) :
  fetchSliceOf rev m = Returned (Some s) ->
  resolveLines (opts m) = {| startLine := Js.Num a; endLine := finish |} ->
  Z.of_nat (length (Common.parsedLines s)) < a ->
  Js.truthy finish = false ->
  Common.safeStartLine s = Js.Num (Z.of_nat (length (Common.parsedLines s)))
  /\ Common.safeEndLine s = Js.Num (Z.of_nat (length (Common.parsedLines s)))
  /\ exists x,
       last (Common.parsedLines s) = Some x /\ Common.linesRequested s = [x].
Proof.
  intros Hs Hrange Ha Hfinish.
  destruct (fetchSlice_clamped rev m s Hs) as (_ & [contents Hlines] & Hsafe).
  rewrite Hrange in Hsafe. rewrite Hlines in Ha.
  destruct (last_line_beyond_file rev a finish contents Ha Hfinish)
    as (Hclamp & x & Hlast & Hslice).
  rewrite <- Hlines in Hclamp, Hlast, Hslice.
  rewrite Hclamp in Hsafe. injection Hsafe as Hstart Hend.
  split; [done|]. split; [done|]. exists x. split; [done|].
  unfold Common.linesRequested. by rewrite Hstart, Hend.
Qed.

(** X18. For a fetched match whose end line is before its start line
    and before the end of the file, [linesRequested] is empty: the
    bounds are not swapped and nothing throws. *)
Theorem reversed_range_is_empty (rev : Revision) (m : GitHubMatchResult)
    (s : Common.Slice) (a b : Z) :
  fetchSliceOf rev m = Returned (Some s) ->
  resolveLines (opts m) = {| startLine := Js.Num a; endLine := Js.Num b |} ->
  1 <= b -> b < a -> b < Z.of_nat (length (Common.parsedLines s)) ->
  Common.safeStartLine s
  = Js.Num (Z.min a (Z.of_nat (length (Common.parsedLines s))))
  /\ Common.safeEndLine s = Js.Num b
  /\ Common.linesRequested s = [].
Proof.
  intros Hs Hrange Hb Hba Hbn.
  destruct (fetchSlice_clamped rev m s Hs) as (_ & [contents Hlines] & Hsafe).
  rewrite Hrange in Hsafe. rewrite Hlines in Hbn.
  destruct (no_line_of_reversed_range rev a b contents Hb Hba Hbn)
    as (first & final & Hclamp & Hslice).
  rewrite <- Hlines in Hclamp, Hslice.
  rewrite Hclamp in Hsafe. injection Hsafe as Hstart Hend.
  assert (first = Z.min a (Z.of_nat (length (Common.parsedLines s)))
          /\ final = b) as [-> ->].
  { assert (Js.truthy (Js.Num a) = true) as Hta
      by (simpl; destruct (Z.eqb_spec a 0); [lia | done]).
    assert (Js.truthy (Js.Num b) = true) as Htb
      by (simpl; destruct (Z.eqb_spec b 0); [lia | done]).
    rewrite <- Hlines in Hbn.
    destruct rev; simpl in Hclamp;
      unfold RawUrl.safeLines, GistApi.safeLines, Js.or in Hclamp;
      cbn [startLine endLine] in Hclamp; rewrite ?Hta, Htb in Hclamp;
      simpl in Hclamp; injection Hclamp as <- <-; split; lia. }
  split; [done|]. split; [done|].
  unfold Common.linesRequested. by rewrite Hstart, Hend.
Qed.

End SlicedLines.

Lemma range_is_inclusive_witness :
  let range := {| startLine := Js.Num 45; endLine := Js.Num 60 |} in
  let s := Cases.linkSliceWith MetadataApi range in
  let n := Z.of_nat (length (Common.parsedLines s)) in
  let first := Z.min 45 n in
  let last := Z.min 60 n in
  Common.safeStartLine s = Js.Num first
  /\ Common.safeEndLine s = Js.Num last
  /\ Z.of_nat (length (Common.linesRequested s)) = last - first + 1
  /\ forall k, first <= k <= last ->
       line_at (Common.linesRequested s) (k - first + 1)
       = line_at (Common.parsedLines s) k.
Proof.
  intros range s.
  apply (@range_is_inclusive (Scenario.utilsWithRange range) Scenario.net
           MetadataApi Scenario.linkMatch s 45 60).
  - vm_compute; reflexivity.
  - reflexivity.
  - lia.
  - lia.
Defined.

Lemma start_beyond_file_gives_last_line_witness :
  let range := {| startLine := Js.Num 100; endLine := Js.Undefined |} in
  let s := Cases.linkSliceWith PerFileRawUrl range in
  Common.safeStartLine s = Js.Num (Z.of_nat (length (Common.parsedLines s)))
  /\ Common.safeEndLine s = Js.Num (Z.of_nat (length (Common.parsedLines s)))
  /\ exists x,
       last (Common.parsedLines s) = Some x /\ Common.linesRequested s = [x].
Proof.
  intros range s.
  apply (@start_beyond_file_gives_last_line (Scenario.utilsWithRange range)
           Scenario.net PerFileRawUrl Scenario.linkMatch s 100 Js.Undefined).
  - vm_compute; reflexivity.
  - reflexivity.
  - vm_compute; reflexivity.
  - reflexivity.
Defined.

Lemma reversed_range_is_empty_witness :
  let range := {| startLine := Js.Num 10; endLine := Js.Num 5 |} in
  let s := Cases.linkSliceWith MetadataApi range in
  Common.safeStartLine s
  = Js.Num (Z.min 10 (Z.of_nat (length (Common.parsedLines s))))
  /\ Common.safeEndLine s = Js.Num 5
  /\ Common.linesRequested s = [].
Proof.
  intros range s.
  apply (@reversed_range_is_empty (Scenario.utilsWithRange range) Scenario.net
           MetadataApi Scenario.linkMatch s 10 5).
  - vm_compute; reflexivity.
  - reflexivity.
  - lia.
  - lia.
  - vm_compute; reflexivity.
Defined.

Lemma inline_header_shows_rendered_lines_witness :
  let k := Z.of_nat (length (@Common.safeLinesRequested Model.utils Scenario.linkSlice)) in
  @Common.render Model.utils Scenario.linkSlice
  = {| content :=
         Model.generateHeader (Js.Num 5) (Js.Num (5 + k - 1))
           (Common.s_path Scenario.linkSlice) (Some (negb (k =? 10 - 5 + 1)))
           +:+ Str.nl
           +:+ codeBlock (Common.s_lang Scenario.linkSlice)
                 (Str.or
                    (Str.join Str.nl
                       (@Common.safeLinesRequested Model.utils Scenario.linkSlice))
                    "Couldn't find any lines");
       files := [] |}.
Proof.
  apply (@inline_header_shows_rendered_lines Model.utils Scenario.linkSlice 5 10).
  - reflexivity.
  - reflexivity.
  - lia.
  - lia.
  - vm_compute; discriminate.
  - vm_compute; reflexivity.
  - vm_compute; reflexivity.
Defined.

(** ** A closing angle bracket after a link *)

Lemma replace_closing_bracket (u : string) :
  Str.includes ">" u = false -> Str.replace ">" EmptyString (u +:+ ">") = u.
Proof.
  induction u as [|c u IH]; [reflexivity|].
  rewrite includes_cons. intros Hu. apply orb_false_elim in Hu as [Hc Hu].
  rewrite append_cons, replace_eq.
  rewrite prefix_cons in Hc. rewrite prefix_cons.
  destruct (ascii_dec ">" c) as [<-|_].
  - by destruct u.
  - by rewrite IH.
Qed.

(** X21. The converter gives for a link followed by [>], the end of a link
    written between angle brackets, what it gives for the link alone. *)
Theorem normalConverter_drops_closing_bracket (u : string) :
  Str.includes ">" u = false ->
  Common.normalConverter (u +:+ ">") = Common.normalConverter u.
Proof.
  intros Hu. unfold Common.normalConverter.
  by rewrite (replace_closing_bracket u Hu), (replace_absent ">" EmptyString u Hu).
Qed.

Lemma normalConverter_drops_closing_bracket_witness :
  Common.normalConverter (Scenario.link +:+ ">")
  = Common.normalConverter Scenario.link.
Proof.
  apply (normalConverter_drops_closing_bracket Scenario.link). reflexivity.
Defined.

(** ** Finding a file of a gist by its qualifier *)

Lemma remove_all_markers_from_eq (flag : bool) (c : ascii) (s : string) :
  Str.remove_all_markers_from flag (String c s)
  = if flag && Str.is_digit c then Str.remove_all_markers_from true s
    else match c, s with
         | "-"%char, String "L"%char (String d s'') =>
             if Str.is_digit d then Str.remove_all_markers_from true s''
             else String c (Str.remove_all_markers_from false s)
         | _, _ => String c (Str.remove_all_markers_from false s)
         end.
Proof. reflexivity. Qed.

Lemma remove_all_markers_digits (a t : string) :
  Str.all_digits a = true ->
  Str.remove_all_markers_from true (a +:+ t) = Str.remove_all_markers_from true t.
Proof.
  induction a as [|c a IH]; [reflexivity|].
  intros Ha. cbn [Str.all_digits] in Ha. apply andb_true_iff in Ha as [Hc Ha].
  rewrite append_cons, remove_all_markers_from_eq, Hc. cbn [andb]. by apply IH.
Qed.

Lemma remove_all_markers_marker (flag : bool) (a t : string) :
  digits a = true ->
  Str.remove_all_markers_from flag (marker a +:+ t)
  = Str.remove_all_markers_from true t.
Proof.
  intros Ha. apply digits_head in Ha as (d & a' & -> & Hd & Ha').
  change (marker (String d a') +:+ t)
    with (String "-" (String "L" (String d (a' +:+ t)))).
  rewrite remove_all_markers_from_eq.
  replace (flag && Str.is_digit "-") with false by (by destruct flag).
  rewrite Hd. by apply remove_all_markers_digits.
Qed.

Lemma append_nothing (s : string) : s +:+ EmptyString = s.
Proof.
  induction s as [|c s IH]; [reflexivity|]. by rewrite append_cons, IH.
Qed.

(** A qualifier without [-L] keeps its text when the line range after
    it is removed. *)
Lemma remove_all_markers_range (q a b : string) :
  Str.includes "-L" q = false ->
  digits a = true -> digits b = true ->
  Str.remove_all_markers (q +:+ marker a +:+ marker b) = q.
Proof.
  intros Hq Ha Hb. unfold Str.remove_all_markers.
  induction q as [|c q IH].
  - change (EmptyString +:+ marker a +:+ marker b) with (marker a +:+ marker b).
    rewrite remove_all_markers_marker by done.
    rewrite <- (append_nothing (marker b)).
    by rewrite remove_all_markers_marker.
  - rewrite includes_cons in Hq. apply orb_false_elim in Hq as [Hc Hq].
    rewrite append_cons, remove_all_markers_from_eq. simpl andb.
    rewrite <- (IH Hq) at 2.
    destruct q as [|c2 q].
    + change (EmptyString +:+ marker a +:+ marker b)
        with (String "-" (String "L" (a +:+ marker b))).
      by repeat case_match.
    + rewrite append_cons.
      rewrite !prefix_cons in Hc.
      destruct (ascii_dec "-" c) as [<-|Hne].
      * destruct (ascii_dec "L" c2) as [<-|Hne2]; [by destruct q|].
        repeat case_match; congruence.
      * repeat case_match; congruence.
Qed.

Lemma dashed_idempotent (s : string) : dashed (dashed s) = dashed s.
Proof.
  unfold dashed. induction s as [|c s IH]; [reflexivity|].
  cbn [Str.replaceAll]. destruct (Ascii.eqb_spec c ".") as [->|Hne].
  - change ("-" +:+ Str.replaceAll "." "-" s)
      with (String "-" (Str.replaceAll "." "-" s)).
    cbn [Str.replaceAll]. by rewrite IH.
  - cbn [Str.replaceAll]. destruct (Ascii.eqb_spec c "."); [done|]. by rewrite IH.
Qed.

Lemma filter_none {A} (f : A -> string) (k : string) (l : list A) :
  k ∉ map f l -> filter (fun e => f e = k) l = [].
Proof.
  induction l as [|e l IH]; [reflexivity|].
  simpl. intros Hk. apply not_elem_of_cons in Hk as [Hne Hk].
  rewrite filter_cons, decide_False by done. by apply IH.
Qed.

Lemma last_filter_unique {A} (f : A -> string) (l : list A) (x : A) :
  x ∈ l -> NoDup (map f l) ->
  last (filter (fun e => f e = f x) l) = Some x.
Proof.
  induction l as [|e l IH]; [intros Hin; by apply elem_of_nil in Hin|].
  simpl. intros Hin Hdup. apply NoDup_cons in Hdup as [Hnotin Hdup].
  rewrite filter_cons. apply elem_of_cons in Hin as [<-|Hin].
  - rewrite decide_True by done. by rewrite filter_none.
  - rewrite decide_False; [by apply IH|].
    intros Heq. apply Hnotin. rewrite Heq. by apply list_elem_of_fmap_2.
Qed.

(** X22. A file of a gist is found by the qualifier made of its name, with
    dots as dashes, and a line range, when no other file has the same
    dashed name and the dashed name has no [-L]. *)
Theorem gist_file_found (gist_files : list (string * string))
    (fileName contents a b : string) :
  (fileName, contents) ∈ gist_files ->
  NoDup (map (fun e => dashed (fst e)) gist_files) ->
  Str.includes "-L" (dashed fileName) = false ->
  digits a = true -> digits b = true ->
  GistApi.fileContentsOf Gist
    (Some (dashed fileName +:+ marker a +:+ marker b)) (RawGist gist_files)
  = Returned (Some contents).
Proof.
  intros Hin Hdup Hq Ha Hb. unfold GistApi.fileContentsOf. simpl.
  rewrite remove_all_markers_range by done.
  fold (dashed (dashed fileName)). rewrite dashed_idempotent.
  rewrite lookupContent_parseFiles.
  pose proof (last_filter_unique (fun e => dashed (fst e)) gist_files
                (fileName, contents) Hin Hdup) as Hlast.
  cbn [fst] in Hlast. by rewrite Hlast.
Qed.

Lemma gist_file_found_witness :
  GistApi.fileContentsOf Gist
    (Some (dashed "notes.md" +:+ marker "2" +:+ marker "3"))
    (RawGist [("readme.md", "hello"); ("notes.md", "a"); ("main.c", "int")])
  = Returned (Some "a").
Proof.
  apply (gist_file_found
           [("readme.md", "hello"); ("notes.md", "a"); ("main.c", "int")]
           "notes.md" "a" "2" "3").
  - apply list_elem_of_In. vm_compute. auto.
  - vm_compute. repeat constructor; rewrite ?list_elem_of_In; simpl;
      intuition discriminate.
  - reflexivity.
  - reflexivity.
  - reflexivity.
Defined.
